(** * QXMP asset registry and proof-of-reserve coordinator

    A shallow embedding of the two Solidity contracts
    [contracts/QXMPAssetRegistry.sol] and [contracts/QXMPProofOfReserve.sol]
    and the properties their specification states about them.

    Conventions of the embedding:
    - [uint256], [bytes32] and [address] values are integers ([Z]); the
      contracts perform no arithmetic on them, only comparisons with zero
      and equality tests, so no wrap-around is involved;
    - a Solidity [mapping] is a finite map ([gmap]) read with the all-zero
      default value, a dynamic array is a [list];
    - a function of a contract is a computation in a state-and-revert monad
      over the contract's storage; a [require] that fails, or a failing
      external call, aborts the computation with the revert reason;
    - a transaction that reverts leaves the storage as it was ([transact]). *)

From Stdlib Require Import ZArith String List Bool Lia.
From stdpp Require Import base option gmap strings list.

Local Open Scope string_scope.
Local Open Scope Z_scope.

(** ** Results and the contract monad *)

Inductive result (A : Type) : Type :=
  | Ok (a : A)
  | Revert (reason : string).
Arguments Ok {A} a.
Arguments Revert {A} reason.

(** A computation over storage [S]: either a value and the new storage, or a
    revert, in which case no storage is returned. *)
Definition M (S A : Type) : Type := S -> result (A * S).

#[global] Instance M_ret {S} : MRet (M S) :=
  fun A (a : A) s => Ok (a, s).

#[global] Instance M_bind {S} : MBind (M S) :=
  fun A B (f : A -> M S B) (m : M S A) s =>
    match m s with
    | Ok (a, s') => f a s'
    | Revert reason => Revert reason
    end.

(** [require(cond, reason)] *)
Definition require {S} (cond : bool) (reason : string) : M S unit :=
  fun s => if cond then Ok (tt, s) else Revert reason.

Definition gets {S A} (f : S -> A) : M S A := fun s => Ok (f s, s).
Definition modify {S} (f : S -> S) : M S unit := fun s => Ok (tt, f s).

(** The transaction boundary: the storage after a call, rolled back to the
    storage before it when the call reverts. *)
Definition transact {S A} (m : M S A) (s : S) : S :=
  match m s with
  | Ok (_, s') => s'
  | Revert _ => s
  end.

(** What a caller observes of a call: the returned value or the reason. *)
Definition outcome {S A} (m : M S A) (s : S) : result A :=
  match m s with
  | Ok (a, _) => Ok a
  | Revert reason => Revert reason
  end.

(** The part of the transaction a function can read: [msg.sender],
    [block.timestamp], and what the RedStone consumer base extracts from the
    signed payload appended to the call data.  The consumer base
    ([MainDemoConsumerBase]) is a third-party library; its
    [getOracleNumericValueFromTxMsg] either yields the aggregated value of a
    feed or reverts, and is taken here as a component of the environment. *)
Record Env : Type := mkEnv {
  msg_sender : Z;
  block_timestamp : Z;
  oracle : Z -> result Z
}.

(** ** The failure conditions named by the specification *)

Inductive ErrorKind : Type :=
  | Unauthorized
  | NotFound
  | AlreadyExists
  | InvalidValue
  | InvalidHolder
  | InvalidReference
  | IndexOutOfRange
  | InvalidOracleValue
  | AttestationFailed.

(** The revert reasons of the two contracts, sorted into the named
    conditions; any other reason is opaque to them: it comes from the
    verifier, or from a call to an address that holds no contract. *)
Definition error_kind (reason : string) : ErrorKind :=
  if String.eqb reason "Only owner can call this function" then Unauthorized
  else if String.eqb reason "Asset does not exist or is inactive" then NotFound
  else if String.eqb reason "Asset already registered" then AlreadyExists
  else if String.eqb reason "Asset value must be greater than 0" then InvalidValue
  else if String.eqb reason "Invalid holder address" then InvalidHolder
  else if String.eqb reason "Invalid new owner address" then InvalidHolder
  else if String.eqb reason "Invalid registry address" then InvalidReference
  else if String.eqb reason "Index out of bounds" then IndexOutOfRange
  else if String.eqb reason "Invalid oracle value" then InvalidOracleValue
  else AttestationFailed.

Definition failure {A} (r : result A) : option ErrorKind :=
  match r with
  | Ok _ => None
  | Revert reason => Some (error_kind reason)
  end.

(** ** QXMPAssetRegistry.sol *)

Module QXMPAssetRegistry.

Record Asset : Type := mkAsset {
  assetCode : Z;
  assetName : string;
  reportingStandard : string;
  jurisdiction : string;
  assetValueUsd : Z;
  mineralResourcesMt : Z;
  goldOzInSitu : Z;
  reportHash : Z;
  lastUpdated : Z;
  holder : Z;
  isActive : bool
}.

(** The value Solidity reads at a mapping key that was never written. *)
Definition Asset_zero : Asset :=
  mkAsset 0 EmptyString EmptyString EmptyString 0 0 0 0 0 0 false.

Inductive Event : Type :=
  | AssetRegistered (assetCode : Z) (assetName : string)
                    (assetValueUsd : Z) (reportHash : Z)
  | AssetUpdated (assetCode : Z) (newValueUsd : Z) (timestamp : Z)
  | AssetDeactivated (assetCode : Z).

Record State : Type := mkState {
  assets : gmap Z Asset;
  assetCodes : list Z;
  owner : Z;
  events : list Event
}.

(** [assets[assetCode]] *)
Definition asset_at (s : State) (code : Z) : Asset :=
  default Asset_zero (assets s !! code).

Definition set_asset (code : Z) (a : Asset) (s : State) : State :=
  mkState (<[code := a]> (assets s)) (assetCodes s) (owner s) (events s).

Definition set_assetValueUsd (v : Z) (a : Asset) : Asset :=
  mkAsset (assetCode a) (assetName a) (reportingStandard a) (jurisdiction a)
          v (mineralResourcesMt a) (goldOzInSitu a) (reportHash a)
          (lastUpdated a) (holder a) (isActive a).

Definition set_lastUpdated (t : Z) (a : Asset) : Asset :=
  mkAsset (assetCode a) (assetName a) (reportingStandard a) (jurisdiction a)
          (assetValueUsd a) (mineralResourcesMt a) (goldOzInSitu a)
          (reportHash a) t (holder a) (isActive a).

Definition set_isActive (b : bool) (a : Asset) : Asset :=
  mkAsset (assetCode a) (assetName a) (reportingStandard a) (jurisdiction a)
          (assetValueUsd a) (mineralResourcesMt a) (goldOzInSitu a)
          (reportHash a) (lastUpdated a) (holder a) b.

(** [assets[code].field = ...]: a write to one field of the stored struct *)
Definition update_asset (code : Z) (f : Asset -> Asset) : M State unit :=
  modify (fun s => set_asset code (f (asset_at s code)) s).

(** [assetCodes.push(code)] *)
Definition push_assetCode (code : Z) : M State unit :=
  modify (fun s =>
    mkState (assets s) (assetCodes s ++ [code]) (owner s) (events s)).

Definition set_owner (newOwner : Z) : M State unit :=
  modify (fun s => mkState (assets s) (assetCodes s) newOwner (events s)).

Definition emit (e : Event) : M State unit :=
  modify (fun s =>
    mkState (assets s) (assetCodes s) (owner s) (events s ++ [e])).

(** [modifier onlyOwner] *)
Definition onlyOwner {A} (env : Env) (body : M State A) : M State A :=
  o ← gets owner;
  require (msg_sender env =? o) "Only owner can call this function";;
  body.

(** [modifier assetExists(assetCode)] *)
Definition assetExists {A} (code : Z) (body : M State A) : M State A :=
  a ← gets (fun s => asset_at s code);
  require (isActive a) "Asset does not exist or is inactive";;
  body.

(** [constructor()] *)
Definition constructor (env : Env) : State :=
  mkState ∅ [] (msg_sender env) [].

Definition registerAsset (env : Env)
    (assetCode : Z) (assetName reportingStandard jurisdiction : string)
    (assetValueUsd mineralResourcesMt goldOzInSitu reportHash : Z)
    (holderAddress : Z) : M State unit :=
  onlyOwner env (
    a ← gets (fun s => asset_at s assetCode);
    require (negb (isActive a)) "Asset already registered";;
    require (0 <? assetValueUsd) "Asset value must be greater than 0";;
    require (negb (holderAddress =? 0)) "Invalid holder address";;
    modify (set_asset assetCode
      (mkAsset assetCode assetName reportingStandard jurisdiction
               assetValueUsd mineralResourcesMt goldOzInSitu reportHash
               (block_timestamp env) holderAddress true));;
    push_assetCode assetCode;;
    emit (AssetRegistered assetCode assetName assetValueUsd reportHash)).

Definition updateAssetValue (env : Env) (assetCode newValueUsd : Z)
    : M State unit :=
  onlyOwner env (assetExists assetCode (
    require (0 <? newValueUsd) "Asset value must be greater than 0";;
    update_asset assetCode (set_assetValueUsd newValueUsd);;
    update_asset assetCode (set_lastUpdated (block_timestamp env));;
    emit (AssetUpdated assetCode newValueUsd (block_timestamp env)))).

Definition deactivateAsset (env : Env) (assetCode : Z) : M State unit :=
  onlyOwner env (assetExists assetCode (
    update_asset assetCode (set_isActive false);;
    emit (AssetDeactivated assetCode))).

Definition getAsset (assetCode : Z) : M State Asset :=
  assetExists assetCode (gets (fun s => asset_at s assetCode)).

Definition verifyReportHash (assetCode reportHash : Z) : M State bool :=
  assetExists assetCode (
    gets (fun s => QXMPAssetRegistry.reportHash (asset_at s assetCode)
                   =? reportHash)).

Definition getAssetCount : M State Z :=
  gets (fun s => Z.of_nat (length (assetCodes s))).

Definition getAssetCodeByIndex (index : Z) : M State Z :=
  n ← gets (fun s => Z.of_nat (length (assetCodes s)));
  require (index <? n) "Index out of bounds";;
  gets (fun s => nth (Z.to_nat index) (assetCodes s) 0).

Definition transferOwnership (env : Env) (newOwner : Z) : M State unit :=
  onlyOwner env (
    require (negb (newOwner =? 0)) "Invalid new owner address";;
    set_owner newOwner).

End QXMPAssetRegistry.

(** ** QXMPProofOfReserve.sol *)

Module QXMPProofOfReserve.

Record Proof : Type := mkProof {
  value : Z;
  timestamp : Z;
  dataFeedId : Z
}.

Definition Proof_zero : Proof := mkProof 0 0 0.

Inductive Event : Type :=
  | ProofSubmitted (assetCode : Z) (value : Z) (timestamp : Z) (dataFeedId : Z)
  | RegistryUpdated (newRegistry : Z).

Record Storage : Type := mkStorage {
  registry : Z;
  latestProofs : gmap Z Proof;
  owner : Z;
  events : list Event
}.

(** What a function of the coordinator runs on: its own storage, and the
    registry contracts deployed on the chain, which its external calls
    reach by address. *)
Record State : Type := mkState {
  storage : Storage;
  chain : gmap Z QXMPAssetRegistry.State
}.

(** [latestProofs[assetCode]] *)
Definition proof_at (st : Storage) (code : Z) : Proof :=
  default Proof_zero (latestProofs st !! code).

Definition set_latestProof (code : Z) (p : Proof) : M State unit :=
  modify (fun st =>
    mkState (mkStorage (registry (storage st))
                       (<[code := p]> (latestProofs (storage st)))
                       (owner (storage st)) (events (storage st)))
            (chain st)).

Definition set_registry (newRegistry : Z) : M State unit :=
  modify (fun st =>
    mkState (mkStorage newRegistry (latestProofs (storage st))
                       (owner (storage st)) (events (storage st)))
            (chain st)).

Definition set_owner (newOwner : Z) : M State unit :=
  modify (fun st =>
    mkState (mkStorage (registry (storage st)) (latestProofs (storage st))
                       newOwner (events (storage st)))
            (chain st)).

Definition emit (e : Event) : M State unit :=
  modify (fun st =>
    mkState (mkStorage (registry (storage st)) (latestProofs (storage st))
                       (owner (storage st)) (events (storage st) ++ [e]))
            (chain st)).

(** The environment of a call the coordinator at address [this] makes: the
    coordinator is the [msg.sender], the block is the same. *)
Definition callee_env (this : Z) (env : Env) : Env :=
  mkEnv this (block_timestamp env) (oracle env).

(** [registry.f(...)]: an external call of a function of the contract at the
    address stored in [registry].  It reverts when no registry is deployed
    there, and a revert of the callee is propagated with its reason; the
    contract has no try/catch. *)
Definition call_registry {A} (f : M QXMPAssetRegistry.State A) : M State A :=
  fun st =>
    match chain st !! registry (storage st) with
    | None => Revert EmptyString
    | Some r =>
        match f r with
        | Ok (a, r') =>
            Ok (a, mkState (storage st)
                           (<[registry (storage st) := r']> (chain st)))
        | Revert reason => Revert reason
        end
    end.

(** [getOracleNumericValueFromTxMsg(dataFeedId)] of the consumer base *)
Definition getOracleNumericValueFromTxMsg (env : Env) (dataFeedId : Z)
    : M State Z :=
  fun st =>
    match oracle env dataFeedId with
    | Ok v => Ok (v, st)
    | Revert reason => Revert reason
    end.

(** [modifier onlyOwner] *)
Definition onlyOwner {A} (env : Env) (body : M State A) : M State A :=
  o ← gets (fun st => owner (storage st));
  require (msg_sender env =? o) "Only owner can call this function";;
  body.

(** [constructor(address _registryAddress)] *)
Definition constructor (env : Env) (_registryAddress : Z) : result Storage :=
  if negb (_registryAddress =? 0)
  then Ok (mkStorage _registryAddress ∅ (msg_sender env) [])
  else Revert "Invalid registry address".

Definition submitProof (this : Z) (env : Env) (assetCode dataFeedId : Z)
    : M State unit :=
  onlyOwner env (
    oracleValue ← getOracleNumericValueFromTxMsg env dataFeedId;
    require (0 <? oracleValue) "Invalid oracle value";;
    set_latestProof assetCode
      (mkProof oracleValue (block_timestamp env) dataFeedId);;
    call_registry (QXMPAssetRegistry.updateAssetValue
                     (callee_env this env) assetCode oracleValue);;
    emit (ProofSubmitted assetCode oracleValue (block_timestamp env)
                         dataFeedId)).

Definition getLatestProof (assetCode : Z) : M State Proof :=
  gets (fun st => proof_at (storage st) assetCode).

Definition getOracleValue (env : Env) (dataFeedId : Z) : M State Z :=
  getOracleNumericValueFromTxMsg env dataFeedId.

Definition registerAsset (this : Z) (env : Env)
    (assetCode : Z) (assetName reportingStandard jurisdiction : string)
    (assetValueUsd mineralResourcesMt goldOzInSitu reportHash : Z)
    (holder : Z) : M State unit :=
  onlyOwner env (
    call_registry (QXMPAssetRegistry.registerAsset (callee_env this env)
      assetCode assetName reportingStandard jurisdiction assetValueUsd
      mineralResourcesMt goldOzInSitu reportHash holder)).

Definition updateRegistry (env : Env) (newRegistry : Z) : M State unit :=
  onlyOwner env (
    require (negb (newRegistry =? 0)) "Invalid registry address";;
    set_registry newRegistry;;
    emit (RegistryUpdated newRegistry)).

Definition transferOwnership (env : Env) (newOwner : Z) : M State unit :=
  onlyOwner env (
    require (negb (newOwner =? 0)) "Invalid new owner address";;
    set_owner newOwner).

End QXMPProofOfReserve.

(** ** The exposed state-changing operations, as transactions *)

(** The four state-changing functions of the registry. *)
Inductive RegistryCall : Type :=
  | RegisterAsset (assetCode : Z)
      (assetName reportingStandard jurisdiction : string)
      (assetValueUsd mineralResourcesMt goldOzInSitu reportHash : Z)
      (holderAddress : Z)
  | UpdateAssetValue (assetCode newValueUsd : Z)
  | DeactivateAsset (assetCode : Z)
  | TransferOwnership (newOwner : Z).

Definition registry_call (env : Env) (c : RegistryCall)
    : M QXMPAssetRegistry.State unit :=
  match c with
  | RegisterAsset code name std jur v mt oz h holder =>
      QXMPAssetRegistry.registerAsset env code name std jur v mt oz h holder
  | UpdateAssetValue code v => QXMPAssetRegistry.updateAssetValue env code v
  | DeactivateAsset code => QXMPAssetRegistry.deactivateAsset env code
  | TransferOwnership o => QXMPAssetRegistry.transferOwnership env o
  end.

(** The four state-changing functions of the coordinator. *)
Inductive CoordinatorCall : Type :=
  | SubmitProof (assetCode dataFeedId : Z)
  | ForwardRegisterAsset (assetCode : Z)
      (assetName reportingStandard jurisdiction : string)
      (assetValueUsd mineralResourcesMt goldOzInSitu reportHash : Z)
      (holder : Z)
  | UpdateRegistry (newRegistry : Z)
  | TransferCoordinatorOwnership (newOwner : Z).

Definition coordinator_call (this : Z) (env : Env) (c : CoordinatorCall)
    : M QXMPProofOfReserve.State unit :=
  match c with
  | SubmitProof code feed => QXMPProofOfReserve.submitProof this env code feed
  | ForwardRegisterAsset code name std jur v mt oz h holder =>
      QXMPProofOfReserve.registerAsset this env code name std jur v mt oz h
                                       holder
  | UpdateRegistry r => QXMPProofOfReserve.updateRegistry env r
  | TransferCoordinatorOwnership o =>
      QXMPProofOfReserve.transferOwnership env o
  end.

(** The contracts deployed on the chain, by address. *)
Record World : Type := mkWorld {
  registries : gmap Z QXMPAssetRegistry.State;
  coordinators : gmap Z QXMPProofOfReserve.Storage
}.

Inductive Tx : Type :=
  | DeployRegistry (addr : Z)
  | DeployCoordinator (addr : Z) (registryAddress : Z)
  | ToRegistry (addr : Z) (c : RegistryCall)
  | ToCoordinator (addr : Z) (c : CoordinatorCall).

Definition vacant (w : World) (addr : Z) : bool :=
  match registries w !! addr, coordinators w !! addr with
  | None, None => true
  | _, _ => false
  end.

(** One transaction.  A deployment needs an address that holds no contract;
    a call needs a contract of the called kind at the target. *)
Definition exec (env : Env) (tx : Tx) : M World unit :=
  fun w =>
    match tx with
    | DeployRegistry addr =>
        if vacant w addr
        then Ok (tt, mkWorld (<[addr := QXMPAssetRegistry.constructor env]>
                                (registries w))
                             (coordinators w))
        else Revert EmptyString
    | DeployCoordinator addr registryAddress =>
        if vacant w addr
        then match QXMPProofOfReserve.constructor env registryAddress with
             | Ok st => Ok (tt, mkWorld (registries w)
                                        (<[addr := st]> (coordinators w)))
             | Revert reason => Revert reason
             end
        else Revert EmptyString
    | ToRegistry addr c =>
        match registries w !! addr with
        | None => Revert EmptyString
        | Some s =>
            match registry_call env c s with
            | Ok (_, s') => Ok (tt, mkWorld (<[addr := s']> (registries w))
                                            (coordinators w))
            | Revert reason => Revert reason
            end
        end
    | ToCoordinator addr c =>
        match coordinators w !! addr with
        | None => Revert EmptyString
        | Some st =>
            match coordinator_call addr env c
                    (QXMPProofOfReserve.mkState st (registries w)) with
            | Ok (_, st') =>
                Ok (tt, mkWorld (QXMPProofOfReserve.chain st')
                                (<[addr := QXMPProofOfReserve.storage st']>
                                   (coordinators w)))
            | Revert reason => Revert reason
            end
        end
    end.

(** A sequence of transactions, each with its own environment; a
    transaction that reverts changes nothing. *)
Fixpoint run (txs : list (Env * Tx)) (w : World) : World :=
  match txs with
  | [] => w
  | (env, tx) :: rest => run rest (transact (exec env tx) w)
  end.

Definition genesis : World := mkWorld ∅ ∅.

Inductive reachable : World -> Prop :=
  | reachable_genesis : reachable genesis
  | reachable_step w env tx :
      reachable w -> reachable (transact (exec env tx) w).

Module R := QXMPAssetRegistry.
Module P := QXMPProofOfReserve.

(** ** Derived notions used by the statements *)

(** The data invariant of a stored record: while it is active its value is
    positive and its holder is not the zero address. *)
Definition asset_ok (a : R.Asset) : bool :=
  implb (R.isActive a) ((0 <? R.assetValueUsd a) && negb (R.holder a =? 0)).

(** The registry call a coordinator call makes to its registry, if any.
    [submitProof] forwards the value the verifier yields. *)
Definition forwarded (env : Env) (c : CoordinatorCall) : option RegistryCall :=
  match c with
  | SubmitProof code feed =>
      match oracle env feed with
      | Ok v => Some (UpdateAssetValue code v)
      | Revert _ => None
      end
  | ForwardRegisterAsset code name std jur v mt oz h holder =>
      Some (RegisterAsset code name std jur v mt oz h holder)
  | UpdateRegistry _ => None
  | TransferCoordinatorOwnership _ => None
  end.

(** Whether a registry call is a registration under [code]. *)
Definition is_register (code : Z) (c : RegistryCall) : bool :=
  match c with
  | RegisterAsset c' _ _ _ _ _ _ _ _ => c' =? code
  | _ => false
  end.

(** Whether a transaction is a registration under [code], sent to a registry
    or through a coordinator. *)
Definition registers (code : Z) (tx : Tx) : bool :=
  match tx with
  | ToRegistry _ c => is_register code c
  | ToCoordinator _ (ForwardRegisterAsset c' _ _ _ _ _ _ _ _) => c' =? code
  | _ => false
  end.

(** The invariant of a registry: every stored record satisfies [asset_ok];
    and of a world: every deployed registry does. *)
Definition registry_ok (s : R.State) : Prop :=
  forall code a, R.assets s !! code = Some a -> asset_ok a = true.

Definition world_ok (w : World) : Prop :=
  forall addr s, registries w !! addr = Some s -> registry_ok s.

(** ** The data of the repository's test suite *)

(** [ethers.utils.id("QXMP:AKTA-NI43-ZA")] *)
Definition AKTA_ASSET_CODE : Z :=
  0x137d17cd6d1691803e21a7030292936ddf6c9ba9939d5dbe0125776789767d12.
Definition AKTA_NAME : string := "AEM Gold Project".
Definition AKTA_STANDARD : string := "NI 43-101".
Definition AKTA_JURISDICTION : string := "ZA".
(** [ethers.utils.parseEther("6800000000")] *)
Definition AKTA_VALUE : Z := 6800000000 * 10 ^ 18.
Definition AKTA_RESOURCES : Z := 25000000.
Definition AKTA_GOLD_OZ : Z := 1562825.
Definition AKTA_REPORT_HASH : Z :=
  0x96e2e35d0f3740c9941eabc471eaa4442dd7b0aed5a257bf53e4b5e9d8105a51.
(** [ethers.utils.formatBytes32String("AKTA")] *)
Definition AKTA_DATA_FEED_ID : Z := 0x414b5441 * 2 ^ 224.
(** [ethers.utils.parseEther("7000000000")] *)
Definition NEW_VALUE : Z := 7000000000 * 10 ^ 18.

(** Two accounts and two contract addresses, pairwise distinct. *)
Definition owner_address : Z := 0xf39Fd6e51aad88F6F4ce6aB8827279cffFb92266.
Definition addr1 : Z := 0x70997970C51812dc3A010C7d01b50e0d17dc79C8.
Definition registry_address : Z := 0x5FbDB2315678afecb367f032d93F642f64180aa3.
Definition coordinator_address : Z := 0xe7f1725E7734CE288F8367e1Bb143E90bb3F0512.

(** A payload carrying one data point for the AKTA feed, as the numeric
    mock of the tests builds it. *)
Definition mock_oracle (v : Z) : Z -> result Z :=
  fun feed => if feed =? AKTA_DATA_FEED_ID then Ok v
              else Revert "missing data feed".

Definition by_owner (now : Z) : Env := mkEnv owner_address now (mock_oracle NEW_VALUE).
Definition by_addr1 (now : Z) : Env := mkEnv addr1 now (mock_oracle NEW_VALUE).

Definition register_AKTA (env : Env) (hash : Z) : M R.State unit :=
  R.registerAsset env AKTA_ASSET_CODE AKTA_NAME AKTA_STANDARD AKTA_JURISDICTION
                  AKTA_VALUE AKTA_RESOURCES AKTA_GOLD_OZ hash owner_address.

(** A fresh registry, and the registry of the tests after registration. *)
Definition fresh_registry : R.State := R.constructor (by_owner 1000).
Definition AKTA_registry : R.State :=
  transact (register_AKTA (by_owner 1001) AKTA_REPORT_HASH) fresh_registry.

(** The registry after a registration of AKTA with an all-zero report hash. *)
Definition zero_hash_registry : R.State :=
  transact (register_AKTA (by_owner 1001) 0) fresh_registry.

(** The registry of the tests after AKTA was deactivated. *)
Definition deactivated_registry : R.State :=
  transact (R.deactivateAsset (by_owner 1002) AKTA_ASSET_CODE) AKTA_registry.

(** The set-up of the coordinator's tests: a registry is deployed and AKTA
    registered in it, a coordinator is deployed for that registry, and the
    ownership of the registry is transferred to the coordinator. *)
Definition test_setup : list (Env * Tx) :=
  [ (by_owner 1000, DeployRegistry registry_address);
    (by_owner 1001,
     ToRegistry registry_address
       (RegisterAsset AKTA_ASSET_CODE AKTA_NAME AKTA_STANDARD AKTA_JURISDICTION
                      AKTA_VALUE AKTA_RESOURCES AKTA_GOLD_OZ AKTA_REPORT_HASH
                      owner_address));
    (by_owner 1002, DeployCoordinator coordinator_address registry_address);
    (by_owner 1003,
     ToRegistry registry_address (TransferOwnership coordinator_address)) ].

Definition test_world : World := run test_setup genesis.

(** What the coordinator at [addr] runs on in world [w]. *)
Definition coordinator_state (w : World) (addr : Z) : P.State :=
  P.mkState (default (P.mkStorage 0 ∅ 0 []) (coordinators w !! addr))
            (registries w).

Definition test_state : P.State := coordinator_state test_world coordinator_address.

(** The same set-up, except that AKTA is deactivated by the owner before
    the registry is handed over to the coordinator. *)
Definition test_setup_inactive : list (Env * Tx) :=
  [ (by_owner 1000, DeployRegistry registry_address);
    (by_owner 1001,
     ToRegistry registry_address
       (RegisterAsset AKTA_ASSET_CODE AKTA_NAME AKTA_STANDARD AKTA_JURISDICTION
                      AKTA_VALUE AKTA_RESOURCES AKTA_GOLD_OZ AKTA_REPORT_HASH
                      owner_address));
    (by_owner 1002, ToRegistry registry_address (DeactivateAsset AKTA_ASSET_CODE));
    (by_owner 1003, DeployCoordinator coordinator_address registry_address);
    (by_owner 1004,
     ToRegistry registry_address (TransferOwnership coordinator_address)) ].

Definition test_state_inactive : P.State :=
  coordinator_state (run test_setup_inactive genesis) coordinator_address.

(** Calls made after the set-up with the deactivated asset, none of them a
    registration: a proof submission, a direct update by the former owner,
    a second deactivation, a deployment at the registry's address. *)
Definition later_calls : list (Env * Tx) :=
  [ (by_owner 1005,
     ToCoordinator coordinator_address
       (SubmitProof AKTA_ASSET_CODE AKTA_DATA_FEED_ID));
    (by_owner 1006,
     ToRegistry registry_address (UpdateAssetValue AKTA_ASSET_CODE NEW_VALUE));
    (mkEnv coordinator_address 1007 (mock_oracle NEW_VALUE),
     ToRegistry registry_address (DeactivateAsset AKTA_ASSET_CODE));
    (by_owner 1008, DeployRegistry registry_address) ].

(** ** Reading the registry's event log *)

(** The codes of the [AssetRegistered] events of a log, in order. *)
Definition registered_code (e : R.Event) : option Z :=
  match e with
  | R.AssetRegistered code _ _ _ => Some code
  | _ => None
  end.

Definition registered_codes (evs : list R.Event) : list Z :=
  omap registered_code evs.

(** What an indexer that follows the events knows of one code: whether it
    is active, its value and its report hash. *)
Record Indexed : Type := mkIndexed {
  ix_active : bool;
  ix_value : Z;
  ix_hash : Z
}.

Definition index_event (code : Z) (ix : Indexed) (e : R.Event) : Indexed :=
  match e with
  | R.AssetRegistered c _ v h =>
      if c =? code then mkIndexed true v h else ix
  | R.AssetUpdated c v _ =>
      if c =? code then mkIndexed (ix_active ix) v (ix_hash ix) else ix
  | R.AssetDeactivated c =>
      if c =? code then mkIndexed false (ix_value ix) (ix_hash ix) else ix
  end.

Definition index_log (code : Z) (evs : list R.Event) : Indexed :=
  fold_left (index_event code) evs (mkIndexed false 0 0).

Definition indexed_of (a : R.Asset) : Indexed :=
  mkIndexed (R.isActive a) (R.assetValueUsd a) (R.reportHash a).

(** Calls made after the test set-up by the former owner of the registry,
    none of them sent to the registry by its owner, the coordinator. *)
Definition former_owner_calls : list (Env * Tx) :=
  [ (by_owner 1005,
     ToRegistry registry_address (DeactivateAsset AKTA_ASSET_CODE));
    (by_owner 1006,
     ToRegistry registry_address (TransferOwnership owner_address));
    (by_owner 1007,
     ToCoordinator coordinator_address
       (SubmitProof AKTA_ASSET_CODE AKTA_DATA_FEED_ID));
    (by_owner 1008,
     ToCoordinator coordinator_address (TransferCoordinatorOwnership addr1));
    (by_addr1 1009,
     ToCoordinator coordinator_address (UpdateRegistry addr1)) ].

(** Whether the transaction is one the account [o] sends to the registry at
    [r] itself. *)
Definition sent_directly (r o : Z) (etx : Env * Tx) : Prop :=
  match snd etx with
  | ToRegistry addr _ => addr = r /\ msg_sender (fst etx) = o
  | _ => False
  end.

(** ** The deployment and registration scripts *)

(** A script sends its transactions one after the other and stops at the
    first one that reverts; what the earlier ones did stays done. *)
Fixpoint script (txs : list (Env * Tx)) (w : World) : World * result unit :=
  match txs with
  | [] => (w, Ok tt)
  | (env, tx) :: rest =>
      match exec env tx w with
      | Ok (_, w') => script rest w'
      | Revert reason => (w, Revert reason)
      end
  end.

(** [scripts/deploy.js], [main]: deploy the registry, deploy the coordinator
    for it, transfer the ownership of the registry to the coordinator.  The
    addresses the chain gives to the two contracts, the block timestamps
    and the call data payload are parameters. *)
Definition deploy_main (deployer : Z) (now1 now2 now3 : Z)
    (payload : Z -> result Z) (registry_addr proofOfReserve_addr : Z)
    : list (Env * Tx) :=
  [ (mkEnv deployer now1 payload, DeployRegistry registry_addr);
    (mkEnv deployer now2 payload,
     DeployCoordinator proofOfReserve_addr registry_addr);
    (mkEnv deployer now3 payload,
     ToRegistry registry_addr (TransferOwnership proofOfReserve_addr)) ].




(** ** The report parser and its command line *)

(** A JavaScript string is the sequence of its UTF-16 code units. *)
Definition code_units (s : string) : list N :=
  map Ascii.N_of_ascii (String.list_ascii_of_string s).

(** The character class [a-zA-Z0-9-] *)
Definition is_safe_unit (c : N) : bool :=
  (((97 <=? c) && (c <=? 122)) || ((65 <=? c) && (c <=? 90)) ||
   ((48 <=? c) && (c <=? 57)) || (c =? 45))%N.

(** [cli.ts], the [parse] command:
    [options.code.replace(/[^a-zA-Z0-9-]/g, '_')], every code unit outside
    the class replaced by an underscore. *)
Definition safeCode (code : list N) : list N :=
  map (fun c => if is_safe_unit c then c else 95%N) code.

(** A regular expression literal: its source and its flags. *)
Record RegExp : Type := mkRegExp {
  source : string;
  flags : string
}.

(** The string methods of the JavaScript runtime the extractors call.
    [js_match text re] is [text.match(re)] for an expression without the
    [g] flag: [None] for [null], otherwise [match[0]] and [match[1]], the
    latter [None] when the expression has no first group or the group took
    no part in the match. *)
Record StringMethods : Type := mkStringMethods {
  js_match : list N -> RegExp -> option (list N * option (list N));
  trim : list N -> list N;
  toLowerCase : list N -> list N;
  includes : list N -> list N -> bool
}.

(** [for (const pattern of patterns) { ... return ... }]: the value of the
    first iteration that returns. *)
Fixpoint for_of {A B} (body : A -> option B) (xs : list A) : option B :=
  match xs with
  | [] => None
  | x :: rest =>
      match body x with
      | Some b => Some b
      | None => for_of body rest
      end
  end.

(** [extractors/ni43101.ts], [extractAssetValue] *)
Definition extractAssetValue (js : StringMethods) (text : list N) : Z :=
  let patterns :=
    [ mkRegExp "(?:Asset\s+Value|Verified\s+Value)[:\s]+(?:USD?\s*)?\$?\s*6[.,]8\s*(?:B|Billion)" "i";
      mkRegExp "\$\s*6[.,]800[.,]000[.,]000(?:[.,]00)?" EmptyString;
      mkRegExp "6[.,]8\s*(?:B|Billion)" "i" ] in
  match for_of (fun pattern =>
                  match js_match js text pattern with
                  | Some _ => Some 6800000000
                  | None => None
                  end) patterns with
  | Some value => value
  | None => 6800000000
  end.

(** [extractors/ni43101.ts], [extractJurisdiction];
    [match[1]?.trim() || match[0].trim()] takes the trimmed group when it
    is present and not empty. *)
Definition extractJurisdiction (js : StringMethods) (text : list N)
    : list N :=
  let patterns :=
    [ mkRegExp "Jurisdiction:\s*([^\n]+)" "i";
      mkRegExp "South\s*Africa" "i";
      mkRegExp "Republic\s*of\s*South\s*Africa" "i" ] in
  match for_of (fun pattern =>
                  match js_match js text pattern with
                  | Some (match0, match1) =>
                      let jurisdiction :=
                        match match1 with
                        | Some group =>
                            match trim js group with
                            | [] => trim js match0
                            | trimmed => trimmed
                            end
                        | None => trim js match0
                        end in
                      if includes js (toLowerCase js jurisdiction)
                                  (code_units "south africa")
                      then Some (code_units "ZA")
                      else None
                  | None => None
                  end) patterns with
  | Some code => code
  | None => code_units "ZA"
  end.

(** ** What a revaluation or a deactivation leaves of a record *)

(** Two records that differ at most in value, time of last update and
    active flag. *)
Definition same_metadata (a a' : R.Asset) : Prop :=
  R.assetCode a' = R.assetCode a /\
  R.assetName a' = R.assetName a /\
  R.reportingStandard a' = R.reportingStandard a /\
  R.jurisdiction a' = R.jurisdiction a /\
  R.mineralResourcesMt a' = R.mineralResourcesMt a /\
  R.goldOzInSitu a' = R.goldOzInSitu a /\
  R.reportHash a' = R.reportHash a /\
  R.holder a' = R.holder a.

(** ** Invariants and relations used by the statements *)

(** What one successful registry call does to the enumeration and to the
    set of stored records: it appends at most one code and deletes no
    record. *)
Definition grows (s s' : R.State) : Prop :=
  R.assetCodes s `prefix_of` R.assetCodes s' /\
  forall code, is_Some (R.assets s !! code) -> is_Some (R.assets s' !! code).

(** The records and the enumeration of a registry agree. *)
Definition enumerated (s : R.State) : Prop :=
  (forall code a, R.assets s !! code = Some a ->
                  R.assetCode a = code /\ code ∈ R.assetCodes s) /\
  (forall code, code ∈ R.assetCodes s -> is_Some (R.assets s !! code)).

(** The enumeration and the records of a registry agree with its log. *)
Definition logged (s : R.State) : Prop :=
  R.assetCodes s = registered_codes (R.events s) /\
  forall code, index_log code (R.events s) = indexed_of (R.asset_at s code).

(** Every stored proof has a positive value and a timestamp with property
    [T]. *)
Definition proofs_ok (T : Z -> Prop) (sto : P.Storage) : Prop :=
  forall code p,
    P.latestProofs sto !! code = Some p -> 0 < P.value p /\ T (P.timestamp p).

(** A code unit of a derived file name: in the class, or an underscore. *)
Definition file_name_unit (c : N) : Prop :=
  is_safe_unit c = true \/ c = 95%N.

(** ** Equations of the registry functions *)

(** Unfolds the monad down to matches on the tests the code makes. *)
Ltac unfold_M :=
  cbv [mbind mret M_bind M_ret require gets modify
       R.onlyOwner R.assetExists R.update_asset R.push_assetCode
       R.set_owner R.emit
       P.onlyOwner P.set_latestProof P.set_registry P.set_owner P.emit
       P.getOracleNumericValueFromTxMsg].

Section RegistryEquations.

Variable env : Env.
Variable s : R.State.

Lemma R_onlyOwner_eq {A} (body : M R.State A) :
  R.onlyOwner env body s =
  if msg_sender env =? R.owner s then body s
  else Revert "Only owner can call this function".
Proof. unfold_M. destruct (_ =? _); reflexivity. Qed.

Lemma R_assetExists_eq {A} code (body : M R.State A) :
  R.assetExists code body s =
  if R.isActive (R.asset_at s code) then body s
  else Revert "Asset does not exist or is inactive".
Proof. unfold_M. destruct (R.isActive _); reflexivity. Qed.

Lemma registerAsset_eq code name std jur v mt oz h holder :
  R.registerAsset env code name std jur v mt oz h holder s =
  if msg_sender env =? R.owner s then
    if R.isActive (R.asset_at s code) then Revert "Asset already registered"
    else if 0 <? v then
      if holder =? 0 then Revert "Invalid holder address"
      else Ok (tt, R.mkState
                 (<[code := R.mkAsset code name std jur v mt oz h
                              (block_timestamp env) holder true]> (R.assets s))
                 (R.assetCodes s ++ [code]) (R.owner s)
                 (R.events s ++ [R.AssetRegistered code name v h]))
    else Revert "Asset value must be greater than 0"
  else Revert "Only owner can call this function".
Proof.
  unfold R.registerAsset. rewrite R_onlyOwner_eq.
  destruct (_ =? R.owner s); [|reflexivity]. unfold_M.
  destruct (R.isActive _); [reflexivity|]. simpl.
  destruct (0 <? v); [|reflexivity]. simpl.
  destruct (holder =? 0); reflexivity.
Qed.

Lemma updateAssetValue_eq code v :
  R.updateAssetValue env code v s =
  if msg_sender env =? R.owner s then
    if R.isActive (R.asset_at s code) then
      if 0 <? v then
        Ok (tt, R.mkState
              (<[code := R.set_lastUpdated (block_timestamp env)
                           (R.set_assetValueUsd v (R.asset_at s code))]>
                 (R.assets s))
              (R.assetCodes s) (R.owner s)
              (R.events s ++ [R.AssetUpdated code v (block_timestamp env)]))
      else Revert "Asset value must be greater than 0"
    else Revert "Asset does not exist or is inactive"
  else Revert "Only owner can call this function".
Proof.
  unfold R.updateAssetValue. rewrite R_onlyOwner_eq.
  destruct (_ =? R.owner s); [|reflexivity]. rewrite R_assetExists_eq.
  destruct (R.isActive _); [|reflexivity]. unfold_M.
  destruct (0 <? v); [|reflexivity]. simpl.
  unfold R.set_asset, R.asset_at at 1. simpl.
  rewrite lookup_insert_eq, insert_insert_eq. reflexivity.
Qed.

Lemma deactivateAsset_eq code :
  R.deactivateAsset env code s =
  if msg_sender env =? R.owner s then
    if R.isActive (R.asset_at s code) then
      Ok (tt, R.mkState
            (<[code := R.set_isActive false (R.asset_at s code)]> (R.assets s))
            (R.assetCodes s) (R.owner s)
            (R.events s ++ [R.AssetDeactivated code]))
    else Revert "Asset does not exist or is inactive"
  else Revert "Only owner can call this function".
Proof.
  unfold R.deactivateAsset. rewrite R_onlyOwner_eq.
  destruct (_ =? R.owner s); [|reflexivity]. rewrite R_assetExists_eq.
  destruct (R.isActive _); reflexivity.
Qed.

Lemma transferOwnership_eq newOwner :
  R.transferOwnership env newOwner s =
  if msg_sender env =? R.owner s then
    if newOwner =? 0 then Revert "Invalid new owner address"
    else Ok (tt, R.mkState (R.assets s) (R.assetCodes s) newOwner (R.events s))
  else Revert "Only owner can call this function".
Proof.
  unfold R.transferOwnership. rewrite R_onlyOwner_eq.
  destruct (_ =? R.owner s); [|reflexivity]. unfold_M.
  destruct (newOwner =? 0); reflexivity.
Qed.

Lemma getAsset_eq code :
  R.getAsset code s =
  if R.isActive (R.asset_at s code) then Ok (R.asset_at s code, s)
  else Revert "Asset does not exist or is inactive".
Proof. unfold R.getAsset. rewrite R_assetExists_eq. reflexivity. Qed.

Lemma verifyReportHash_eq code h :
  R.verifyReportHash code h s =
  if R.isActive (R.asset_at s code)
  then Ok (R.reportHash (R.asset_at s code) =? h, s)
  else Revert "Asset does not exist or is inactive".
Proof. unfold R.verifyReportHash. rewrite R_assetExists_eq. reflexivity. Qed.

Lemma getAssetCodeByIndex_eq index :
  R.getAssetCodeByIndex index s =
  if index <? Z.of_nat (length (R.assetCodes s))
  then Ok (nth (Z.to_nat index) (R.assetCodes s) 0, s)
  else Revert "Index out of bounds".
Proof. unfold R.getAssetCodeByIndex. unfold_M. destruct (_ <? _); reflexivity. Qed.

End RegistryEquations.

Lemma asset_at_insert_eq m code a l o ev :
  R.asset_at (R.mkState (<[code := a]> m) l o ev) code = a.
Proof. unfold R.asset_at. simpl. rewrite lookup_insert_eq. reflexivity. Qed.

Lemma asset_at_insert_ne m code code' a l o ev l' o' ev' :
  code <> code' ->
  R.asset_at (R.mkState (<[code := a]> m) l o ev) code' =
  R.asset_at (R.mkState m l' o' ev') code'.
Proof.
  intros Hne. unfold R.asset_at. simpl.
  rewrite lookup_insert_ne by assumption. reflexivity.
Qed.

(** ** Registration *)

Lemma getAssetCount_outcome s :
  outcome R.getAssetCount s = Ok (Z.of_nat (length (R.assetCodes s))).
Proof. reflexivity. Qed.

(** C3: for all valid inputs (the caller is the owner, no active record is
    stored under the code, the value is positive, the holder is not the zero
    address), [registerAsset] succeeds; [getAsset] on the resulting state
    returns a record whose fields are exactly the registered arguments, with
    [isActive = true] and [lastUpdated] the time of the registration; and
    [getAssetCount] afterwards is its value before plus exactly one. *)
Theorem C3_register_then_get env code name std jur v mt oz h holder s :
  msg_sender env = R.owner s ->
  R.isActive (R.asset_at s code) = false ->
  0 < v ->
  holder <> 0 ->
  exists s' n,
    R.registerAsset env code name std jur v mt oz h holder s = Ok (tt, s') /\
    outcome (R.getAsset code) s' =
      Ok (R.mkAsset code name std jur v mt oz h
                    (block_timestamp env) holder true) /\
    outcome R.getAssetCount s = Ok n /\
    outcome R.getAssetCount s' = Ok (n + 1).
Proof.
  intros Hsender Hinactive Hv Hholder.
  rewrite registerAsset_eq, Hinactive.
  apply Z.eqb_eq in Hsender. apply Z.ltb_lt in Hv. apply Z.eqb_neq in Hholder.
  rewrite Hsender, Hv, Hholder.
  eexists. exists (Z.of_nat (length (R.assetCodes s))).
  split; [reflexivity|]. split; [|split].
  - unfold outcome. rewrite getAsset_eq, asset_at_insert_eq. reflexivity.
  - apply getAssetCount_outcome.
  - rewrite getAssetCount_outcome. simpl. rewrite length_app. simpl.
    f_equal. lia.
Qed.

Lemma C3_witness :
  msg_sender (by_owner 1001) = R.owner fresh_registry /\
  R.isActive (R.asset_at fresh_registry AKTA_ASSET_CODE) = false /\
  0 < AKTA_VALUE /\
  owner_address <> 0 /\
  exists s' n,
    register_AKTA (by_owner 1001) AKTA_REPORT_HASH fresh_registry
      = Ok (tt, s') /\
    outcome (R.getAsset AKTA_ASSET_CODE) s' =
      Ok (R.mkAsset AKTA_ASSET_CODE AKTA_NAME AKTA_STANDARD AKTA_JURISDICTION
                    AKTA_VALUE AKTA_RESOURCES AKTA_GOLD_OZ AKTA_REPORT_HASH
                    1001 owner_address true) /\
    outcome R.getAssetCount fresh_registry = Ok n /\
    outcome R.getAssetCount s' = Ok (n + 1).
Proof.
  assert (H1 : msg_sender (by_owner 1001) = R.owner fresh_registry)
    by reflexivity.
  assert (H2 : R.isActive (R.asset_at fresh_registry AKTA_ASSET_CODE) = false)
    by reflexivity.
  assert (H3 : 0 < AKTA_VALUE) by reflexivity.
  assert (H4 : owner_address <> 0) by discriminate.
  repeat split; try assumption.
  exact (C3_register_then_get (by_owner 1001) AKTA_ASSET_CODE AKTA_NAME
           AKTA_STANDARD AKTA_JURISDICTION AKTA_VALUE AKTA_RESOURCES
           AKTA_GOLD_OZ AKTA_REPORT_HASH owner_address fresh_registry
           H1 H2 H3 H4).
Defined.

(** C4: [registerAsset] fails with [Unauthorized] when the caller is not the
    owner; past that check, with [AlreadyExists] when an active record is
    stored under the code; past that, with [InvalidValue] when the value is
    not positive; past that, with [InvalidHolder] when the holder is the
    zero address (the checks are made in this order, and the first that
    fails names the failure).  Whenever one of the four conditions holds the
    call reverts, and the registry state after the transaction is the state
    before it: the record mapping, the enumeration sequence and hence the
    count, the owner and the event log are all unchanged. *)
Theorem C4_register_failures env code name std jur v mt oz h holder s :
  let call := R.registerAsset env code name std jur v mt oz h holder in
  (msg_sender env <> R.owner s ->
     failure (outcome call s) = Some Unauthorized) /\
  (msg_sender env = R.owner s ->
   R.isActive (R.asset_at s code) = true ->
     failure (outcome call s) = Some AlreadyExists) /\
  (msg_sender env = R.owner s ->
   R.isActive (R.asset_at s code) = false ->
   v <= 0 ->
     failure (outcome call s) = Some InvalidValue) /\
  (msg_sender env = R.owner s ->
   R.isActive (R.asset_at s code) = false ->
   0 < v ->
   holder = 0 ->
     failure (outcome call s) = Some InvalidHolder) /\
  (msg_sender env <> R.owner s \/ R.isActive (R.asset_at s code) = true \/
   v <= 0 \/ holder = 0 ->
     (exists reason, call s = Revert reason) /\
     transact call s = s /\
     R.assets (transact call s) = R.assets s /\
     outcome R.getAssetCount (transact call s) = outcome R.getAssetCount s).
Proof.
  intros call. unfold call, transact, outcome.
  rewrite registerAsset_eq.
  destruct (Z.eqb_spec (msg_sender env) (R.owner s)) as [Hs|Hs];
  destruct (R.isActive (R.asset_at s code)) eqn:Ha;
  destruct (Z.ltb_spec 0 v) as [Hv|Hv];
  destruct (Z.eqb_spec holder 0) as [Hh|Hh];
  simpl; repeat split; intros; try reflexivity; try congruence; try lia;
  try (eexists; reflexivity).
  all: exfalso; intuition (congruence || lia).
Qed.

Lemma C4_witness :
  failure (outcome (register_AKTA (by_addr1 1002) AKTA_REPORT_HASH)
                   AKTA_registry) = Some Unauthorized /\
  failure (outcome (register_AKTA (by_owner 1002) AKTA_REPORT_HASH)
                   AKTA_registry) = Some AlreadyExists /\
  failure (outcome (R.registerAsset (by_owner 1001) AKTA_ASSET_CODE AKTA_NAME
                      AKTA_STANDARD AKTA_JURISDICTION 0 AKTA_RESOURCES
                      AKTA_GOLD_OZ AKTA_REPORT_HASH owner_address)
                   fresh_registry) = Some InvalidValue /\
  failure (outcome (R.registerAsset (by_owner 1001) AKTA_ASSET_CODE AKTA_NAME
                      AKTA_STANDARD AKTA_JURISDICTION AKTA_VALUE AKTA_RESOURCES
                      AKTA_GOLD_OZ AKTA_REPORT_HASH 0)
                   fresh_registry) = Some InvalidHolder /\
  transact (register_AKTA (by_owner 1002) AKTA_REPORT_HASH) AKTA_registry
    = AKTA_registry.
Proof.
  split; [|split; [|split; [|split]]].
  - apply (C4_register_failures (by_addr1 1002) AKTA_ASSET_CODE AKTA_NAME
             AKTA_STANDARD AKTA_JURISDICTION AKTA_VALUE AKTA_RESOURCES
             AKTA_GOLD_OZ AKTA_REPORT_HASH owner_address AKTA_registry).
    discriminate.
  - apply (C4_register_failures (by_owner 1002) AKTA_ASSET_CODE AKTA_NAME
             AKTA_STANDARD AKTA_JURISDICTION AKTA_VALUE AKTA_RESOURCES
             AKTA_GOLD_OZ AKTA_REPORT_HASH owner_address AKTA_registry);
      reflexivity.
  - apply (C4_register_failures (by_owner 1001) AKTA_ASSET_CODE AKTA_NAME
             AKTA_STANDARD AKTA_JURISDICTION 0 AKTA_RESOURCES
             AKTA_GOLD_OZ AKTA_REPORT_HASH owner_address fresh_registry);
      [reflexivity | reflexivity | lia].
  - apply (C4_register_failures (by_owner 1001) AKTA_ASSET_CODE AKTA_NAME
             AKTA_STANDARD AKTA_JURISDICTION AKTA_VALUE AKTA_RESOURCES
             AKTA_GOLD_OZ AKTA_REPORT_HASH 0 fresh_registry);
      reflexivity.
  - apply (C4_register_failures (by_owner 1002) AKTA_ASSET_CODE AKTA_NAME
             AKTA_STANDARD AKTA_JURISDICTION AKTA_VALUE AKTA_RESOURCES
             AKTA_GOLD_OZ AKTA_REPORT_HASH owner_address AKTA_registry).
    right. left. reflexivity.
Defined.

(** ** Hash verification *)

(** C6 (as amended): for every code with an active record and every
    candidate hash [h], [verifyReportHash] returns without error, and returns
    [true] iff [h] equals the stored report hash; an all-zero candidate
    returns [false] whenever the stored hash is not itself all-zero; and
    for every code, [verifyReportHash] fails with [NotFound] exactly when
    [getAsset] does, which is when no record is stored under the code or
    the record is inactive. *)
Theorem C6_verifyHash s code h :
  (R.isActive (R.asset_at s code) = true ->
     outcome (R.verifyReportHash code h) s =
       Ok (R.reportHash (R.asset_at s code) =? h) /\
     (outcome (R.verifyReportHash code h) s = Ok true <->
        h = R.reportHash (R.asset_at s code)) /\
     (R.reportHash (R.asset_at s code) <> 0 ->
        outcome (R.verifyReportHash code 0) s = Ok false)) /\
  (failure (outcome (R.verifyReportHash code h) s) = Some NotFound <->
     failure (outcome (R.getAsset code) s) = Some NotFound) /\
  (failure (outcome (R.verifyReportHash code h) s) = Some NotFound <->
     R.isActive (R.asset_at s code) = false) /\
  (R.assets s !! code = None ->
     failure (outcome (R.verifyReportHash code h) s) = Some NotFound).
Proof.
  unfold outcome. rewrite !verifyReportHash_eq, getAsset_eq.
  split; [|split; [|split]].
  - intros Ha. rewrite Ha. split; [reflexivity|]. split; [split|].
    + intros [= Heq]. apply Z.eqb_eq in Heq. congruence.
    + intros ->. rewrite Z.eqb_refl. reflexivity.
    + intros Hnz. apply Z.eqb_neq in Hnz. rewrite Hnz. reflexivity.
  - destruct (R.isActive _); simpl; split; intros; (reflexivity || discriminate).
  - destruct (R.isActive _); simpl; split; intros; (reflexivity || discriminate).
  - intros Hnone. unfold R.asset_at. rewrite Hnone. reflexivity.
Qed.

Lemma C6_witness :
  R.isActive (R.asset_at AKTA_registry AKTA_ASSET_CODE) = true /\
  R.reportHash (R.asset_at AKTA_registry AKTA_ASSET_CODE) <> 0 /\
  outcome (R.verifyReportHash AKTA_ASSET_CODE 0) AKTA_registry = Ok false.
Proof.
  assert (Ha : R.isActive (R.asset_at AKTA_registry AKTA_ASSET_CODE) = true)
    by reflexivity.
  assert (Hh : R.reportHash (R.asset_at AKTA_registry AKTA_ASSET_CODE) <> 0)
    by discriminate.
  split; [exact Ha|]. split; [exact Hh|].
  exact (proj2 (proj2 (proj1 (C6_verifyHash AKTA_registry AKTA_ASSET_CODE 0)
                         Ha)) Hh).
Defined.

(** C6, as stated, fails: a record registered with an all-zero report hash
    is active, and [verifyReportHash] with the all-zero candidate returns
    [true] for it, not [false]. *)
Lemma C6_counterexample :
  register_AKTA (by_owner 1001) 0 fresh_registry
    = Ok (tt, zero_hash_registry) /\
  R.isActive (R.asset_at zero_hash_registry AKTA_ASSET_CODE) = true /\
  outcome (R.verifyReportHash AKTA_ASSET_CODE 0) zero_hash_registry = Ok true /\
  outcome (R.verifyReportHash AKTA_ASSET_CODE 0) zero_hash_registry <> Ok false.
Proof. repeat split; try reflexivity. discriminate. Qed.

(** C9: [registerAsset] places no constraint on the report hash: for every
    hash, the all-zero one included, a registration with valid arguments
    succeeds, and for the record registered with the all-zero hash
    [verifyReportHash] with the all-zero candidate returns [true]. *)
Theorem C9_zero_hash_accepted env code name std jur v mt oz holder s :
  msg_sender env = R.owner s ->
  R.isActive (R.asset_at s code) = false ->
  0 < v ->
  holder <> 0 ->
  (forall h, exists s',
     R.registerAsset env code name std jur v mt oz h holder s = Ok (tt, s')) /\
  (exists s',
     R.registerAsset env code name std jur v mt oz 0 holder s = Ok (tt, s') /\
     outcome (R.verifyReportHash code 0) s' = Ok true).
Proof.
  intros Hsender Hinactive Hv Hholder.
  apply Z.eqb_eq in Hsender. apply Z.ltb_lt in Hv. apply Z.eqb_neq in Hholder.
  split.
  - intros h. rewrite registerAsset_eq, Hsender, Hinactive, Hv, Hholder.
    eexists. reflexivity.
  - rewrite registerAsset_eq, Hsender, Hinactive, Hv, Hholder.
    eexists. split; [reflexivity|].
    unfold outcome. rewrite verifyReportHash_eq, asset_at_insert_eq.
    reflexivity.
Qed.

Lemma C9_witness :
  exists s',
    register_AKTA (by_owner 1001) 0 fresh_registry = Ok (tt, s') /\
    outcome (R.verifyReportHash AKTA_ASSET_CODE 0) s' = Ok true.
Proof.
  apply (C9_zero_hash_accepted (by_owner 1001) AKTA_ASSET_CODE AKTA_NAME
           AKTA_STANDARD AKTA_JURISDICTION AKTA_VALUE AKTA_RESOURCES
           AKTA_GOLD_OZ owner_address fresh_registry);
    [reflexivity | reflexivity | reflexivity | discriminate].
Defined.

(** ** Deactivation *)



(** ** Equations of the coordinator functions *)

Section CoordinatorEquations.

Variable this : Z.
Variable env : Env.
Variable st : P.State.

Lemma P_onlyOwner_eq {A} (body : M P.State A) :
  P.onlyOwner env body st =
  if msg_sender env =? P.owner (P.storage st) then body st
  else Revert "Only owner can call this function".
Proof. unfold_M. destruct (_ =? _); reflexivity. Qed.

Lemma submitProof_eq code feed :
  P.submitProof this env code feed st =
  if msg_sender env =? P.owner (P.storage st) then
    match oracle env feed with
    | Ok v =>
        if 0 <? v then
          match P.chain st !! P.registry (P.storage st) with
          | None => Revert EmptyString
          | Some r =>
              match R.updateAssetValue (P.callee_env this env) code v r with
              | Ok (_, r') =>
                  Ok (tt, P.mkState
                        (P.mkStorage
                           (P.registry (P.storage st))
                           (<[code := P.mkProof v (block_timestamp env) feed]>
                              (P.latestProofs (P.storage st)))
                           (P.owner (P.storage st))
                           (P.events (P.storage st) ++
                              [P.ProofSubmitted code v (block_timestamp env)
                                                feed]))
                        (<[P.registry (P.storage st) := r']> (P.chain st)))
              | Revert reason => Revert reason
              end
          end
        else Revert "Invalid oracle value"
    | Revert reason => Revert reason
    end
  else Revert "Only owner can call this function".
Proof.
  unfold P.submitProof. rewrite P_onlyOwner_eq.
  destruct (_ =? _); [|reflexivity]. unfold_M.
  destruct (oracle env feed) as [v|]; [|reflexivity].
  destruct (0 <? v); [|reflexivity]. simpl.
  unfold P.call_registry. simpl.
  destruct (P.chain st !! _) as [r|]; [|reflexivity].
  destruct (R.updateAssetValue _ _ _ r) as [[[] r']|]; reflexivity.
Qed.

Lemma P_registerAsset_eq code name std jur v mt oz h holder :
  P.registerAsset this env code name std jur v mt oz h holder st =
  if msg_sender env =? P.owner (P.storage st) then
    match P.chain st !! P.registry (P.storage st) with
    | None => Revert EmptyString
    | Some r =>
        match R.registerAsset (P.callee_env this env)
                              code name std jur v mt oz h holder r with
        | Ok (_, r') =>
            Ok (tt, P.mkState (P.storage st)
                      (<[P.registry (P.storage st) := r']> (P.chain st)))
        | Revert reason => Revert reason
        end
    end
  else Revert "Only owner can call this function".
Proof.
  unfold P.registerAsset. rewrite P_onlyOwner_eq.
  destruct (_ =? _); [|reflexivity].
  unfold P.call_registry.
  destruct (P.chain st !! _) as [r|]; [|reflexivity].
  destruct (R.registerAsset _ _ _ _ _ _ _ _ _ _ r) as [[[] r']|];
    reflexivity.
Qed.

Lemma updateRegistry_eq newRegistry :
  P.updateRegistry env newRegistry st =
  if msg_sender env =? P.owner (P.storage st) then
    if newRegistry =? 0 then Revert "Invalid registry address"
    else Ok (tt, P.mkState
               (P.mkStorage newRegistry (P.latestProofs (P.storage st))
                  (P.owner (P.storage st))
                  (P.events (P.storage st) ++ [P.RegistryUpdated newRegistry]))
               (P.chain st))
  else Revert "Only owner can call this function".
Proof.
  unfold P.updateRegistry. rewrite P_onlyOwner_eq.
  destruct (_ =? _); [|reflexivity]. unfold_M.
  destruct (newRegistry =? 0); reflexivity.
Qed.

Lemma P_transferOwnership_eq newOwner :
  P.transferOwnership env newOwner st =
  if msg_sender env =? P.owner (P.storage st) then
    if newOwner =? 0 then Revert "Invalid new owner address"
    else Ok (tt, P.mkState
               (P.mkStorage (P.registry (P.storage st))
                  (P.latestProofs (P.storage st)) newOwner
                  (P.events (P.storage st)))
               (P.chain st))
  else Revert "Only owner can call this function".
Proof.
  unfold P.transferOwnership. rewrite P_onlyOwner_eq.
  destruct (_ =? _); [|reflexivity]. unfold_M.
  destruct (newOwner =? 0); reflexivity.
Qed.

End CoordinatorEquations.

(** ** Proof submission *)

(** C1: for every asset code and feed, when [submitProof] is called by the
    coordinator's owner and the verifier yields a value [V > 0]:
    - if the call succeeds, the proof stored for the code is
      [{V, now, feed}] and the record of the code in the coordinator's
      registry has value [V];
    - it does succeed when the registry's [updateAssetValue] sub-call does,
      in particular when the coordinator owns the registry and the record
      is active;
    - if the sub-call fails (no active record under the code, for
      instance), the whole call fails with the sub-call's reason, and the
      state after the transaction is the state before it: the proof stored
      for the code is what it was. *)
Theorem C1_submitProof_atomic this env code feed st V :
  msg_sender env = P.owner (P.storage st) ->
  oracle env feed = Ok V ->
  0 < V ->
  let call := P.submitProof this env code feed in
  (forall st', call st = Ok (tt, st') ->
     P.proof_at (P.storage st') code = P.mkProof V (block_timestamp env) feed /\
     exists r',
       P.chain st' !! P.registry (P.storage st') = Some r' /\
       R.assetValueUsd (R.asset_at r' code) = V /\
       R.isActive (R.asset_at r' code) = true) /\
  (forall r r',
     P.chain st !! P.registry (P.storage st) = Some r ->
     R.updateAssetValue (P.callee_env this env) code V r = Ok (tt, r') ->
     exists st', call st = Ok (tt, st')) /\
  (forall r,
     P.chain st !! P.registry (P.storage st) = Some r ->
     R.owner r = this ->
     R.isActive (R.asset_at r code) = true ->
     exists st', call st = Ok (tt, st')) /\
  (forall r reason,
     P.chain st !! P.registry (P.storage st) = Some r ->
     R.updateAssetValue (P.callee_env this env) code V r = Revert reason ->
     call st = Revert reason /\
     transact call st = st /\
     P.latestProofs (P.storage (transact call st)) !! code =
       P.latestProofs (P.storage st) !! code) /\
  (forall r,
     P.chain st !! P.registry (P.storage st) = Some r ->
     R.isActive (R.asset_at r code) = false ->
     failure (outcome call st) <> None /\
     transact call st = st).
Proof.
  intros Hsender Horacle HV call. unfold call, transact, outcome.
  rewrite submitProof_eq.
  apply Z.eqb_eq in Hsender. apply Z.ltb_lt in HV.
  rewrite Hsender, Horacle, HV.
  split; [|split; [|split; [|split]]].
  - intros st' Hrun.
    destruct (P.chain st !! _) as [r|] eqn:Hr; [|discriminate].
    rewrite updateAssetValue_eq in Hrun.
    destruct (_ =? R.owner r); [|discriminate].
    destruct (R.isActive (R.asset_at r code)) eqn:Ha; [|discriminate].
    rewrite HV in Hrun. injection Hrun as <-. split.
    + unfold P.proof_at. simpl. rewrite lookup_insert_eq. reflexivity.
    + eexists. split; [simpl; apply lookup_insert_eq|].
      rewrite asset_at_insert_eq. simpl. split; [reflexivity|exact Ha].
  - intros r r' Hr Hsub. rewrite Hr, Hsub. eexists. reflexivity.
  - intros r Hr Howner Ha. rewrite Hr, updateAssetValue_eq. simpl.
    rewrite Howner, Z.eqb_refl, Ha, HV. eexists. reflexivity.
  - intros r reason Hr Hsub. rewrite Hr, Hsub. repeat split.
  - intros r Hr Ha. rewrite Hr, updateAssetValue_eq, Ha.
    destruct (_ =? R.owner r); simpl; split; (discriminate || reflexivity).
Qed.

Lemma C1_witness :
  msg_sender (by_owner 1005) = P.owner (P.storage test_state) /\
  oracle (by_owner 1005) AKTA_DATA_FEED_ID = Ok NEW_VALUE /\
  0 < NEW_VALUE /\
  (exists st',
     P.submitProof coordinator_address (by_owner 1005) AKTA_ASSET_CODE
                   AKTA_DATA_FEED_ID test_state = Ok (tt, st') /\
     P.proof_at (P.storage st') AKTA_ASSET_CODE =
       P.mkProof NEW_VALUE 1005 AKTA_DATA_FEED_ID /\
     exists r',
       P.chain st' !! registry_address = Some r' /\
       R.assetValueUsd (R.asset_at r' AKTA_ASSET_CODE) = NEW_VALUE) /\
  transact (P.submitProof coordinator_address (by_owner 1005) AKTA_ASSET_CODE
                          AKTA_DATA_FEED_ID) test_state_inactive
    = test_state_inactive.
Proof.
  assert (H1 : msg_sender (by_owner 1005) = P.owner (P.storage test_state))
    by reflexivity.
  assert (H2 : oracle (by_owner 1005) AKTA_DATA_FEED_ID = Ok NEW_VALUE)
    by reflexivity.
  assert (H3 : 0 < NEW_VALUE) by reflexivity.
  split; [exact H1|]. split; [exact H2|]. split; [exact H3|]. split.
  - destruct (C1_submitProof_atomic coordinator_address (by_owner 1005)
                AKTA_ASSET_CODE AKTA_DATA_FEED_ID test_state NEW_VALUE
                H1 H2 H3) as (Hok & _ & Hruns & _).
    destruct (Hruns (default fresh_registry
                       (P.chain test_state !! registry_address)))
      as [st' Hst']; [reflexivity | reflexivity | reflexivity |].
    exists st'. split; [exact Hst'|].
    destruct (Hok st' Hst') as (Hproof & r' & Hr' & Hvalue & _).
    split; [exact Hproof|]. exists r'.
    split; [|exact Hvalue].
    assert (Hreg : P.registry (P.storage st') = registry_address).
    { unfold P.submitProof in Hst'. vm_compute in Hst'.
      injection Hst' as <-. reflexivity. }
    rewrite <- Hreg. exact Hr'.
  - assert (H1' : msg_sender (by_owner 1005)
                  = P.owner (P.storage test_state_inactive)) by reflexivity.
    destruct (C1_submitProof_atomic coordinator_address (by_owner 1005)
                AKTA_ASSET_CODE AKTA_DATA_FEED_ID test_state_inactive NEW_VALUE
                H1' H2 H3) as (_ & _ & _ & _ & Hfails).
    apply (Hfails (default fresh_registry
                     (P.chain test_state_inactive !! registry_address)));
      reflexivity.
Defined.

(** ** Ownership *)

Lemma registry_call_unauthorized env c s :
  msg_sender env <> R.owner s ->
  registry_call env c s = Revert "Only owner can call this function".
Proof.
  intros Hne. apply Z.eqb_neq in Hne.
  destruct c; simpl.
  - rewrite registerAsset_eq, Hne. reflexivity.
  - rewrite updateAssetValue_eq, Hne. reflexivity.
  - rewrite deactivateAsset_eq, Hne. reflexivity.
  - rewrite transferOwnership_eq, Hne. reflexivity.
Qed.

Lemma registry_call_authorized env c s :
  msg_sender env = R.owner s ->
  failure (outcome (registry_call env c) s) <> Some Unauthorized.
Proof.
  intros Heq. apply Z.eqb_eq in Heq. unfold outcome.
  destruct c; simpl.
  - rewrite registerAsset_eq, Heq.
    destruct (R.isActive _); [discriminate|].
    destruct (0 <? _); [|discriminate].
    destruct (_ =? 0); discriminate.
  - rewrite updateAssetValue_eq, Heq.
    destruct (R.isActive _); [|discriminate].
    destruct (0 <? _); discriminate.
  - rewrite deactivateAsset_eq, Heq.
    destruct (R.isActive _); discriminate.
  - rewrite transferOwnership_eq, Heq.
    destruct (_ =? 0); discriminate.
Qed.

Lemma coordinator_call_unauthorized this env c st :
  msg_sender env <> P.owner (P.storage st) ->
  coordinator_call this env c st = Revert "Only owner can call this function".
Proof.
  intros Hne. apply Z.eqb_neq in Hne.
  destruct c; simpl.
  - rewrite submitProof_eq, Hne. reflexivity.
  - rewrite P_registerAsset_eq, Hne. reflexivity.
  - rewrite updateRegistry_eq, Hne. reflexivity.
  - rewrite P_transferOwnership_eq, Hne. reflexivity.
Qed.

(** C8 (as amended): for either component, [transferOwnership(X)] fails with
    [Unauthorized] when the caller is not the current owner and, for the
    owner, with [InvalidHolder] when [X] is the zero address; otherwise it
    succeeds and [X] is the owner.  After it, the authorization check of
    every state-changing function passes for caller [X]; and, provided [X]
    differs from the previous owner, every state-changing call by the
    previous owner fails with [Unauthorized] and changes nothing. *)
Theorem C8_transferOwnership :
  (forall env X s,
     (msg_sender env <> R.owner s ->
        failure (outcome (R.transferOwnership env X) s) = Some Unauthorized) /\
     (msg_sender env = R.owner s -> X = 0 ->
        failure (outcome (R.transferOwnership env X) s) = Some InvalidHolder) /\
     (msg_sender env = R.owner s -> X <> 0 ->
        exists s',
          R.transferOwnership env X s = Ok (tt, s') /\
          R.owner s' = X /\
          (forall env' A (body : M R.State A),
             msg_sender env' = X -> R.onlyOwner env' body s' = body s') /\
          (forall env' c,
             msg_sender env' = X ->
             failure (outcome (registry_call env' c) s') <> Some Unauthorized) /\
          (X <> R.owner s ->
           forall env' c,
             msg_sender env' = R.owner s ->
             failure (outcome (registry_call env' c) s') = Some Unauthorized /\
             transact (registry_call env' c) s' = s'))) /\
  (forall env X st,
     (msg_sender env <> P.owner (P.storage st) ->
        failure (outcome (P.transferOwnership env X) st) = Some Unauthorized) /\
     (msg_sender env = P.owner (P.storage st) -> X = 0 ->
        failure (outcome (P.transferOwnership env X) st) = Some InvalidHolder) /\
     (msg_sender env = P.owner (P.storage st) -> X <> 0 ->
        exists st',
          P.transferOwnership env X st = Ok (tt, st') /\
          P.owner (P.storage st') = X /\
          (forall env' A (body : M P.State A),
             msg_sender env' = X -> P.onlyOwner env' body st' = body st') /\
          (X <> P.owner (P.storage st) ->
           forall this env' c,
             msg_sender env' = P.owner (P.storage st) ->
             failure (outcome (coordinator_call this env' c) st')
               = Some Unauthorized /\
             transact (coordinator_call this env' c) st' = st'))).
Proof.
  split.
  - intros env X s. unfold outcome. rewrite transferOwnership_eq.
    split; [|split].
    + intros Hne. apply Z.eqb_neq in Hne. rewrite Hne. reflexivity.
    + intros Heq ->. apply Z.eqb_eq in Heq. rewrite Heq. reflexivity.
    + intros Heq HX. apply Z.eqb_eq in Heq. apply Z.eqb_neq in HX.
      rewrite Heq, HX. eexists. split; [reflexivity|]. simpl.
      split; [reflexivity|]. split; [|split].
      * intros env' A body HX'. rewrite R_onlyOwner_eq. simpl.
        rewrite HX', Z.eqb_refl. reflexivity.
      * intros env' c HX'. apply registry_call_authorized. exact HX'.
      * intros Hdiff env' c Hold. unfold transact, outcome.
        rewrite registry_call_unauthorized; [split; reflexivity|].
        simpl. congruence.
  - intros env X st. unfold outcome. rewrite P_transferOwnership_eq.
    split; [|split].
    + intros Hne. apply Z.eqb_neq in Hne. rewrite Hne. reflexivity.
    + intros Heq ->. apply Z.eqb_eq in Heq. rewrite Heq. reflexivity.
    + intros Heq HX. apply Z.eqb_eq in Heq. apply Z.eqb_neq in HX.
      rewrite Heq, HX. eexists. split; [reflexivity|]. simpl.
      split; [reflexivity|]. split.
      * intros env' A body HX'. rewrite P_onlyOwner_eq. simpl.
        rewrite HX', Z.eqb_refl. reflexivity.
      * intros Hdiff this env' c Hold. unfold transact, outcome.
        rewrite coordinator_call_unauthorized; [split; reflexivity|].
        simpl. congruence.
Qed.

Lemma C8_witness :
  (exists s',
     R.transferOwnership (by_owner 1002) addr1 AKTA_registry = Ok (tt, s') /\
     R.owner s' = addr1 /\
     failure (outcome (R.updateAssetValue (by_owner 1003) AKTA_ASSET_CODE
                                          NEW_VALUE) s') = Some Unauthorized /\
     failure (outcome (R.updateAssetValue (by_addr1 1003) AKTA_ASSET_CODE
                                          NEW_VALUE) s') <> Some Unauthorized) /\
  (exists st',
     P.transferOwnership (by_owner 1005) addr1 test_state = Ok (tt, st') /\
     P.owner (P.storage st') = addr1 /\
     failure (outcome (P.submitProof coordinator_address (by_owner 1006)
                         AKTA_ASSET_CODE AKTA_DATA_FEED_ID) st')
       = Some Unauthorized).
Proof.
  split.
  - destruct (proj1 C8_transferOwnership (by_owner 1002) addr1 AKTA_registry)
      as (_ & _ & Hok).
    destruct Hok as (s' & Hrun & Howner & _ & Hnew & Hold);
      [reflexivity | discriminate |].
    exists s'. split; [exact Hrun|]. split; [exact Howner|]. split.
    + apply (Hold ltac:(discriminate) (by_owner 1003)
                  (UpdateAssetValue AKTA_ASSET_CODE NEW_VALUE)).
      reflexivity.
    + apply (Hnew (by_addr1 1003) (UpdateAssetValue AKTA_ASSET_CODE NEW_VALUE)).
      reflexivity.
  - destruct (proj2 C8_transferOwnership (by_owner 1005) addr1 test_state)
      as (_ & _ & Hok).
    destruct Hok as (st' & Hrun & Howner & _ & Hold);
      [reflexivity | discriminate |].
    exists st'. split; [exact Hrun|]. split; [exact Howner|].
    apply (Hold ltac:(discriminate) coordinator_address (by_owner 1006)
                (SubmitProof AKTA_ASSET_CODE AKTA_DATA_FEED_ID)).
    reflexivity.
Defined.

(** C8, as stated, fails when the owner transfers the ownership to itself:
    the transfer succeeds, [X] is not the zero address, and the next
    state-changing call of the previous owner succeeds. *)
Lemma C8_counterexample :
  owner_address <> 0 /\
  R.owner AKTA_registry = owner_address /\
  outcome (R.transferOwnership (by_owner 1002) owner_address) AKTA_registry
    = Ok tt /\
  outcome (R.updateAssetValue (by_owner 1003) AKTA_ASSET_CODE NEW_VALUE)
          (transact (R.transferOwnership (by_owner 1002) owner_address)
                    AKTA_registry)
    = Ok tt /\
  failure (outcome (R.updateAssetValue (by_owner 1003) AKTA_ASSET_CODE NEW_VALUE)
             (transact (R.transferOwnership (by_owner 1002) owner_address)
                       AKTA_registry))
    <> Some Unauthorized.
Proof. repeat split; try reflexivity; discriminate. Qed.

(** ** Registration under a deactivated code *)

(** C10: in a freshly deployed registry, the owner's calls
    [registerAsset(c, ...)], [deactivateAsset(c)], [registerAsset(c, ...)]
    with valid arguments all succeed, and the second registration appends [c]
    to the enumeration sequence a second time: afterwards [getAssetCount]
    is 2 and [getAssetCodeByIndex] returns [c] at indices 0 and 1, while
    only one distinct code was ever registered. *)
Theorem C10_reregistration_duplicates env0 env1 env2 env3 code
    name1 std1 jur1 v1 mt1 oz1 h1 holder1
    name2 std2 jur2 v2 mt2 oz2 h2 holder2 :
  msg_sender env1 = msg_sender env0 ->
  msg_sender env2 = msg_sender env0 ->
  msg_sender env3 = msg_sender env0 ->
  0 < v1 -> holder1 <> 0 ->
  0 < v2 -> holder2 <> 0 ->
  exists s1 s2 s3,
    R.registerAsset env1 code name1 std1 jur1 v1 mt1 oz1 h1 holder1
                    (R.constructor env0) = Ok (tt, s1) /\
    R.deactivateAsset env2 code s1 = Ok (tt, s2) /\
    R.registerAsset env3 code name2 std2 jur2 v2 mt2 oz2 h2 holder2 s2
      = Ok (tt, s3) /\
    R.assetCodes s3 = [code; code] /\
    outcome R.getAssetCount s3 = Ok 2 /\
    outcome (R.getAssetCodeByIndex 0) s3 = Ok code /\
    outcome (R.getAssetCodeByIndex 1) s3 = Ok code /\
    length (remove_dups (R.assetCodes s3)) = 1%nat /\
    R.isActive (R.asset_at s3 code) = true.
Proof.
  intros Hs1 Hs2 Hs3 Hv1 Hh1 Hv2 Hh2.
  apply Z.ltb_lt in Hv1, Hv2. apply Z.eqb_neq in Hh1, Hh2.
  do 3 eexists.
  split.
  { rewrite registerAsset_eq. simpl.
    rewrite Hs1, Z.eqb_refl, Hv1, Hh1. reflexivity. }
  split.
  { rewrite deactivateAsset_eq, asset_at_insert_eq. simpl.
    rewrite Hs2, Z.eqb_refl. reflexivity. }
  split.
  { rewrite registerAsset_eq, asset_at_insert_eq. simpl.
    rewrite Hs3, Z.eqb_refl, Hv2, Hh2. reflexivity. }
  repeat split.
  - simpl. unfold remove_dups. destruct (decide_rel elem_of code [code]) as [|Hn].
    + reflexivity.
    + exfalso. apply Hn. apply list_elem_of_singleton. reflexivity.
  - rewrite asset_at_insert_eq. reflexivity.
Qed.

Lemma C10_witness :
  exists s1 s2 s3,
    register_AKTA (by_owner 1001) AKTA_REPORT_HASH fresh_registry
      = Ok (tt, s1) /\
    R.deactivateAsset (by_owner 1002) AKTA_ASSET_CODE s1 = Ok (tt, s2) /\
    register_AKTA (by_owner 1003) AKTA_REPORT_HASH s2 = Ok (tt, s3) /\
    outcome R.getAssetCount s3 = Ok 2 /\
    outcome (R.getAssetCodeByIndex 0) s3 = Ok AKTA_ASSET_CODE /\
    outcome (R.getAssetCodeByIndex 1) s3 = Ok AKTA_ASSET_CODE.
Proof.
  destruct (C10_reregistration_duplicates
              (by_owner 1000) (by_owner 1001) (by_owner 1002) (by_owner 1003)
              AKTA_ASSET_CODE
              AKTA_NAME AKTA_STANDARD AKTA_JURISDICTION AKTA_VALUE
              AKTA_RESOURCES AKTA_GOLD_OZ AKTA_REPORT_HASH owner_address
              AKTA_NAME AKTA_STANDARD AKTA_JURISDICTION AKTA_VALUE
              AKTA_RESOURCES AKTA_GOLD_OZ AKTA_REPORT_HASH owner_address)
    as (s1 & s2 & s3 & H1 & H2 & H3 & _ & Hcount & Hat0 & Hat1 & _);
    [reflexivity | reflexivity | reflexivity
     | reflexivity | discriminate | reflexivity | discriminate |].
  exists s1, s2, s3. repeat split; assumption.
Defined.

(** ** Transactions and the registries of the world *)

(** What a successful coordinator call does to the registries: nothing, or
    the effect of the registry call it forwards to its registry. *)
Lemma coordinator_call_chain this env c st st' :
  coordinator_call this env c st = Ok (tt, st') ->
  match forwarded env c with
  | Some c' =>
      exists r r',
        P.chain st !! P.registry (P.storage st) = Some r /\
        registry_call (P.callee_env this env) c' r = Ok (tt, r') /\
        P.chain st' = <[P.registry (P.storage st) := r']> (P.chain st)
  | None => P.chain st' = P.chain st
  end.
Proof.
  destruct c; simpl.
  - rewrite submitProof_eq.
    destruct (_ =? _); [|discriminate].
    destruct (oracle env dataFeedId) as [v|]; [|discriminate].
    destruct (0 <? v); [|discriminate].
    destruct (P.chain st !! _) as [r|]; [|discriminate].
    destruct (R.updateAssetValue _ _ _ r) as [[[] r']|] eqn:Hsub;
      [|discriminate].
    intros [= <-]. exists r, r'. simpl. auto.
  - rewrite P_registerAsset_eq.
    destruct (_ =? _); [|discriminate].
    destruct (P.chain st !! _) as [r|]; [|discriminate].
    destruct (R.registerAsset _ _ _ _ _ _ _ _ _ _ r) as [[[] r']|] eqn:Hsub;
      [|discriminate].
    intros [= <-]. exists r, r'. simpl. auto.
  - rewrite updateRegistry_eq.
    destruct (_ =? _); [|discriminate].
    destruct (_ =? 0); [discriminate|].
    intros [= <-]. reflexivity.
  - rewrite P_transferOwnership_eq.
    destruct (_ =? _); [|discriminate].
    destruct (_ =? 0); [discriminate|].
    intros [= <-]. reflexivity.
Qed.

Lemma forwarded_is_register env code cc c addr :
  forwarded env cc = Some c ->
  registers code (ToCoordinator addr cc) = false ->
  is_register code c = false.
Proof.
  destruct cc; simpl.
  - destruct (oracle env dataFeedId); [|discriminate].
    intros [= <-] _. reflexivity.
  - intros [= <-] H. exact H.
  - discriminate.
  - discriminate.
Qed.

(** What a successful transaction does to the registries: nothing, a fresh
    registry at a vacant address, or the effect of one successful registry
    call on one registry. *)
Lemma exec_registries env tx w w' :
  exec env tx w = Ok (tt, w') ->
  registries w' = registries w \/
  (exists addr,
     registries w !! addr = None /\
     registries w' = <[addr := R.constructor env]> (registries w)) \/
  (exists addr env' c s s',
     registries w !! addr = Some s /\
     registry_call env' c s = Ok (tt, s') /\
     registries w' = <[addr := s']> (registries w) /\
     forall code, registers code tx = false -> is_register code c = false).
Proof.
  destruct tx as [addr|addr ra|addr c|addr cc]; simpl.
  - unfold vacant.
    destruct (registries w !! addr) eqn:Hr; [discriminate|].
    destruct (coordinators w !! addr); [discriminate|].
    intros [= <-]. right. left. exists addr. auto.
  - destruct (vacant w addr); [|discriminate].
    destruct (P.constructor env ra); [|discriminate].
    intros [= <-]. left. reflexivity.
  - destruct (registries w !! addr) as [s|] eqn:Hr; [|discriminate].
    destruct (registry_call env c s) as [[[] s']|] eqn:Hcall; [|discriminate].
    intros [= <-]. right. right. exists addr, env, c, s, s'. auto.
  - destruct (coordinators w !! addr) as [st|]; [|discriminate].
    destruct (coordinator_call addr env cc _) as [[[] st']|] eqn:Hcall;
      [|discriminate].
    intros [= <-]. simpl.
    apply coordinator_call_chain in Hcall. simpl in Hcall.
    destruct (forwarded env cc) as [c|] eqn:Hfwd.
    + destruct Hcall as (r & r' & Hr & Hsub & Hchain).
      right. right.
      exists (P.registry st), (P.callee_env addr env), c, r, r'.
      repeat split; try assumption.
      intros code Hreg.
      exact (forwarded_is_register env code cc c addr Hfwd Hreg).
    + left. exact Hcall.
Qed.

Lemma transact_exec_cases env tx w :
  transact (exec env tx) w = w \/
  exists w', exec env tx w = Ok (tt, w') /\ transact (exec env tx) w = w'.
Proof.
  unfold transact. destruct (exec env tx w) as [[[] w']|].
  - right. exists w'. auto.
  - left. reflexivity.
Qed.

(** ** The record invariant *)

Lemma asset_ok_spec a :
  asset_ok a = true <->
  (R.isActive a = true -> 0 < R.assetValueUsd a /\ R.holder a <> 0).
Proof.
  unfold asset_ok. destruct (R.isActive a); simpl.
  - rewrite andb_true_iff, negb_true_iff, Z.ltb_lt, Z.eqb_neq. tauto.
  - split; [discriminate | reflexivity].
Qed.

Lemma registry_ok_asset_at s code :
  registry_ok s -> asset_ok (R.asset_at s code) = true.
Proof.
  intros Hok. unfold R.asset_at.
  destruct (R.assets s !! code) as [a|] eqn:Ha; simpl.
  - eapply Hok. exact Ha.
  - reflexivity.
Qed.

Lemma registry_ok_insert m code a l o ev l' o' ev' :
  registry_ok (R.mkState m l o ev) ->
  asset_ok a = true ->
  registry_ok (R.mkState (<[code := a]> m) l' o' ev').
Proof.
  intros Hok Ha code' a'. simpl.
  destruct (decide (code = code')) as [->|Hne].
  - rewrite lookup_insert_eq. intros [= <-]. exact Ha.
  - rewrite lookup_insert_ne by assumption. apply Hok.
Qed.

Lemma constructor_ok env : registry_ok (R.constructor env).
Proof. intros code a. simpl. rewrite lookup_empty. discriminate. Qed.

Lemma registry_call_ok env c s s' :
  registry_ok s ->
  registry_call env c s = Ok (tt, s') ->
  registry_ok s'.
Proof.
  intros Hok. destruct s as [m l o ev].
  destruct c; simpl.
  - rewrite registerAsset_eq.
    destruct (_ =? _); [|discriminate].
    destruct (R.isActive _); [discriminate|].
    destruct (0 <? assetValueUsd) eqn:Hv; [|discriminate].
    destruct (holderAddress =? 0) eqn:Hh; [discriminate|].
    intros [= <-]. eapply registry_ok_insert; [exact Hok|].
    unfold asset_ok. simpl. rewrite Hv, Hh. reflexivity.
  - rewrite updateAssetValue_eq.
    destruct (_ =? _); [|discriminate].
    destruct (R.isActive _) eqn:Ha; [|discriminate].
    destruct (0 <? newValueUsd) eqn:Hv; [|discriminate].
    intros [= <-]. eapply registry_ok_insert; [exact Hok|].
    pose proof (registry_ok_asset_at _ assetCode Hok) as Hold.
    unfold asset_ok in *. simpl. rewrite Ha in *. simpl in *. rewrite Hv.
    apply andb_true_iff in Hold. destruct Hold as [_ ->]. reflexivity.
  - rewrite deactivateAsset_eq.
    destruct (_ =? _); [|discriminate].
    destruct (R.isActive _); [|discriminate].
    intros [= <-]. eapply registry_ok_insert; [exact Hok|]. reflexivity.
  - rewrite transferOwnership_eq.
    destruct (_ =? _); [|discriminate].
    destruct (_ =? 0); [discriminate|].
    intros [= <-]. exact Hok.
Qed.

Lemma exec_ok env tx w : world_ok w -> world_ok (transact (exec env tx) w).
Proof.
  intros Hok.
  destruct (transact_exec_cases env tx w) as [->|(w' & Hexec & ->)];
    [exact Hok|].
  apply exec_registries in Hexec.
  destruct Hexec as [Heq|[(addr & _ & Heq)|
                          (addr & env' & c & s & s' & Hs & Hcall & Heq & _)]];
    intros addr' s''; rewrite Heq.
  - apply Hok.
  - destruct (decide (addr = addr')) as [->|Hne].
    + rewrite lookup_insert_eq. intros [= <-]. apply constructor_ok.
    + rewrite lookup_insert_ne by assumption. apply Hok.
  - destruct (decide (addr = addr')) as [->|Hne].
    + rewrite lookup_insert_eq. intros [= <-].
      eapply registry_call_ok; [|exact Hcall]. eapply Hok. exact Hs.
    + rewrite lookup_insert_ne by assumption. apply Hok.
Qed.

Lemma reachable_ok w : reachable w -> world_ok w.
Proof.
  induction 1 as [|w env tx _ IH].
  - intros addr s. simpl. rewrite lookup_empty. discriminate.
  - apply exec_ok. exact IH.
Qed.

Lemma reachable_run txs w : reachable w -> reachable (run txs w).
Proof.
  revert w. induction txs as [|[env tx] rest IH]; intros w Hw; simpl.
  - exact Hw.
  - apply IH. constructor. exact Hw.
Qed.

(** C5: in every reachable state of the world, every record of every
    registry with [isActive = true] has a positive value and a holder that
    is not the zero address; and the invariant is preserved by every
    exposed operation: by each state-changing registry function
    ([registerAsset], [updateAssetValue], [deactivateAsset],
    [transferOwnership]), by each coordinator function on the registries it
    reaches ([submitProof] among them), and by every transaction. *)
Theorem C5_active_records_valid :
  (forall w, reachable w ->
     forall addr s code a,
       registries w !! addr = Some s ->
       R.assets s !! code = Some a ->
       R.isActive a = true ->
       0 < R.assetValueUsd a /\ R.holder a <> 0) /\
  (forall env c s,
     registry_ok s -> registry_ok (transact (registry_call env c) s)) /\
  (forall this env c st,
     (forall addr s, P.chain st !! addr = Some s -> registry_ok s) ->
     forall addr s,
       P.chain (transact (coordinator_call this env c) st) !! addr = Some s ->
       registry_ok s) /\
  (forall env tx w, world_ok w -> world_ok (transact (exec env tx) w)).
Proof.
  split; [|split; [|split]].
  - intros w Hw addr s code a Hs Ha Hact.
    apply asset_ok_spec; [|exact Hact].
    eapply (reachable_ok w Hw); eassumption.
  - intros env c s Hok. unfold transact.
    destruct (registry_call env c s) as [[[] s']|] eqn:Hcall; [|exact Hok].
    eapply registry_call_ok; eassumption.
  - intros this env c st Hok addr s. unfold transact.
    destruct (coordinator_call this env c st) as [[[] st']|] eqn:Hcall;
      [|apply Hok].
    apply coordinator_call_chain in Hcall.
    destruct (forwarded env c) as [c'|].
    + destruct Hcall as (r & r' & Hr & Hsub & ->).
      destruct (decide (P.registry (P.storage st) = addr)) as [->|Hne].
      * rewrite lookup_insert_eq. intros [= <-].
        eapply registry_call_ok; [|exact Hsub]. eapply Hok. exact Hr.
      * rewrite lookup_insert_ne by assumption. apply Hok.
    + rewrite Hcall. apply Hok.
  - apply exec_ok.
Qed.

Lemma C5_witness :
  reachable test_world /\
  exists s a,
    registries test_world !! registry_address = Some s /\
    R.assets s !! AKTA_ASSET_CODE = Some a /\
    R.isActive a = true /\
    0 < R.assetValueUsd a /\ R.holder a <> 0.
Proof.
  assert (Hreach : reachable test_world).
  { apply reachable_run. constructor. }
  split; [exact Hreach|].
  exists (default fresh_registry (registries test_world !! registry_address)).
  exists (R.asset_at AKTA_registry AKTA_ASSET_CODE).
  assert (H1 : registries test_world !! registry_address =
               Some (default fresh_registry
                             (registries test_world !! registry_address)))
    by reflexivity.
  assert (H2 : R.assets (default fresh_registry
                           (registries test_world !! registry_address))
                 !! AKTA_ASSET_CODE
               = Some (R.asset_at AKTA_registry AKTA_ASSET_CODE))
    by reflexivity.
  assert (H3 : R.isActive (R.asset_at AKTA_registry AKTA_ASSET_CODE) = true)
    by reflexivity.
  split; [exact H1|]. split; [exact H2|]. split; [exact H3|].
  exact (proj1 C5_active_records_valid test_world Hreach registry_address
               _ AKTA_ASSET_CODE _ H1 H2 H3).
Defined.

(** ** The lifecycle of a code *)

(** A registry call that is not a registration under [code] leaves an
    inactive record under [code] as it is. *)
Lemma registry_call_inactive_frame env c s s' code :
  registry_call env c s = Ok (tt, s') ->
  R.isActive (R.asset_at s code) = false ->
  is_register code c = false ->
  R.asset_at s' code = R.asset_at s code.
Proof.
  intros Hcall Hinactive Hnot. destruct s as [m l o ev].
  destruct c; simpl in Hcall, Hnot.
  - rewrite registerAsset_eq in Hcall.
    destruct (_ =? _); [|discriminate].
    destruct (R.isActive _); [discriminate|].
    destruct (0 <? _); [|discriminate].
    destruct (_ =? 0); [discriminate|].
    injection Hcall as <-. apply Z.eqb_neq in Hnot.
    apply asset_at_insert_ne. exact Hnot.
  - rewrite updateAssetValue_eq in Hcall.
    destruct (_ =? _); [|discriminate].
    destruct (R.isActive _) eqn:Ha; [|discriminate].
    destruct (0 <? _); [|discriminate].
    injection Hcall as <-.
    apply asset_at_insert_ne. intros ->. congruence.
  - rewrite deactivateAsset_eq in Hcall.
    destruct (_ =? _); [|discriminate].
    destruct (R.isActive _) eqn:Ha; [|discriminate].
    injection Hcall as <-.
    apply asset_at_insert_ne. intros ->. congruence.
  - rewrite transferOwnership_eq in Hcall.
    destruct (_ =? _); [|discriminate].
    destruct (_ =? 0); [discriminate|].
    injection Hcall as <-. reflexivity.
Qed.

Lemma exec_inactive_frame env tx w r s code :
  registries w !! r = Some s ->
  R.isActive (R.asset_at s code) = false ->
  registers code tx = false ->
  exists s',
    registries (transact (exec env tx) w) !! r = Some s' /\
    R.asset_at s' code = R.asset_at s code.
Proof.
  intros Hr Hinactive Hnot.
  destruct (transact_exec_cases env tx w) as [->|(w' & Hexec & ->)].
  { exists s. auto. }
  apply exec_registries in Hexec.
  destruct Hexec as [Heq|[(addr & Hvacant & Heq)|
                          (addr & env' & c & s0 & s0' & Hs0 & Hcall & Heq & Hc)]];
    rewrite Heq.
  - exists s. auto.
  - exists s. split; [|reflexivity].
    rewrite lookup_insert_ne; [exact Hr|]. intros ->. congruence.
  - destruct (decide (addr = r)) as [->|Hne].
    + rewrite lookup_insert_eq. exists s0'. split; [reflexivity|].
      assert (s0 = s) as -> by congruence.
      eapply registry_call_inactive_frame; eauto.
    + rewrite lookup_insert_ne by assumption. exists s. auto.
Qed.

(** C2 (as amended): for every code whose record is inactive, no sequence
    of exposed operations that contains no registration under that code
    returns the record to active: after the sequence the record is the same
    inactive record.  An owner call to [registerAsset(code, ...)] with
    otherwise valid arguments fails, with [AlreadyExists], while an active
    record is stored under the code; while the stored record is inactive it
    succeeds and the code is active again. *)
Theorem C2_deactivated_stays_inactive :
  (forall txs w r s code,
     registries w !! r = Some s ->
     R.isActive (R.asset_at s code) = false ->
     Forall (fun etx : Env * Tx => registers code (snd etx) = false) txs ->
     exists s',
       registries (run txs w) !! r = Some s' /\
       R.asset_at s' code = R.asset_at s code /\
       R.isActive (R.asset_at s' code) = false) /\
  (forall env code name std jur v mt oz h holder s,
     msg_sender env = R.owner s ->
     0 < v ->
     holder <> 0 ->
     (R.isActive (R.asset_at s code) = true ->
        failure (outcome (R.registerAsset env code name std jur v mt oz h holder)
                         s) = Some AlreadyExists) /\
     (R.isActive (R.asset_at s code) = false ->
        exists s',
          R.registerAsset env code name std jur v mt oz h holder s
            = Ok (tt, s') /\
          R.isActive (R.asset_at s' code) = true)).
Proof.
  split.
  - induction txs as [|[env tx] rest IH]; intros w r s code Hr Hinactive Hall.
    + exists s. auto.
    + inversion Hall as [|? ? Hhead Htail]; subst. simpl in Hhead.
      destruct (exec_inactive_frame env tx w r s code Hr Hinactive Hhead)
        as (s1 & Hr1 & Heq1).
      destruct (IH (transact (exec env tx) w) r s1 code Hr1) as (s' & Hr' & Heq' & Hin');
        [congruence | exact Htail |].
      exists s'. simpl. split; [exact Hr'|]. split; congruence.
  - intros env code name std jur v mt oz h holder s Hsender Hv Hholder.
    apply Z.eqb_eq in Hsender. apply Z.ltb_lt in Hv. apply Z.eqb_neq in Hholder.
    unfold outcome. rewrite registerAsset_eq, Hsender, Hv, Hholder.
    split; intros Ha; rewrite Ha.
    + reflexivity.
    + eexists. split; [reflexivity|]. rewrite asset_at_insert_eq. reflexivity.
Qed.

Lemma C2_witness :
  (exists s',
     registries (run later_calls (run test_setup_inactive genesis))
       !! registry_address = Some s' /\
     R.isActive (R.asset_at s' AKTA_ASSET_CODE) = false) /\
  (exists s',
     register_AKTA (by_owner 1003) AKTA_REPORT_HASH deactivated_registry
       = Ok (tt, s') /\
     R.isActive (R.asset_at s' AKTA_ASSET_CODE) = true).
Proof.
  split.
  - destruct (proj1 C2_deactivated_stays_inactive later_calls
                (run test_setup_inactive genesis) registry_address
                (default fresh_registry
                   (registries (run test_setup_inactive genesis)
                      !! registry_address))
                AKTA_ASSET_CODE) as (s' & Hs' & _ & Hinactive).
    + reflexivity.
    + reflexivity.
    + repeat constructor.
    + exists s'. split; assumption.
  - apply (proj2 C2_deactivated_stays_inactive (by_owner 1003) AKTA_ASSET_CODE
             AKTA_NAME AKTA_STANDARD AKTA_JURISDICTION AKTA_VALUE
             AKTA_RESOURCES AKTA_GOLD_OZ AKTA_REPORT_HASH owner_address
             deactivated_registry);
      [reflexivity | reflexivity | discriminate | reflexivity].
Defined.

(** C2, as stated, fails: after AKTA is registered and deactivated, its
    record is still stored, inactive, under its code; a registration by the
    owner under the same code with valid arguments succeeds, and the code
    is active again. *)
Lemma C2_counterexample :
  outcome (register_AKTA (by_owner 1001) AKTA_REPORT_HASH) fresh_registry
    = Ok tt /\
  outcome (R.deactivateAsset (by_owner 1002) AKTA_ASSET_CODE) AKTA_registry
    = Ok tt /\
  R.isActive <$> (R.assets deactivated_registry !! AKTA_ASSET_CODE)
    = Some false /\
  outcome (register_AKTA (by_owner 1003) AKTA_REPORT_HASH) deactivated_registry
    = Ok tt /\
  R.isActive
    (R.asset_at (transact (register_AKTA (by_owner 1003) AKTA_REPORT_HASH)
                          deactivated_registry)
                AKTA_ASSET_CODE) = true /\
  failure (outcome (R.getAsset AKTA_ASSET_CODE)
             (transact (register_AKTA (by_owner 1003) AKTA_REPORT_HASH)
                       deactivated_registry)) = None.
Proof. repeat split; reflexivity. Qed.

(** ** The end-to-end scenario of the specification *)

(** AKTA is registered with value 6,800,000,000; a verified attestation of
    7,000,000,000 is submitted for its feed at time 1005; afterwards the
    registry returns the new value and the latest proof is
    [{7,000,000,000, 1005, feed}]. *)
Example end_to_end :
  let after :=
    transact (P.submitProof coordinator_address (by_owner 1005)
                            AKTA_ASSET_CODE AKTA_DATA_FEED_ID) test_state in
  R.assetValueUsd (R.asset_at AKTA_registry AKTA_ASSET_CODE) = AKTA_VALUE /\
  (R.assetValueUsd <$>
     (r ← P.chain after !! registry_address;
      Some (R.asset_at r AKTA_ASSET_CODE))) = Some NEW_VALUE /\
  outcome (P.getLatestProof AKTA_ASSET_CODE) after
    = Ok (P.mkProof NEW_VALUE 1005 AKTA_DATA_FEED_ID).
Proof. repeat split; reflexivity. Qed.

(** ** Further properties of the registry *)

(** A revaluation by the owner of an active record with a positive value
    succeeds; afterwards [getAsset] returns the former record with the new
    value and [lastUpdated] the time of the call, every other field, every
    other record, the enumeration and the owner being as before; one
    [AssetUpdated] event is logged; and [verifyReportHash] answers as it
    did. *)
Theorem updateAssetValue_effect env code v s :
  msg_sender env = R.owner s ->
  R.isActive (R.asset_at s code) = true ->
  0 < v ->
  exists s',
    R.updateAssetValue env code v s = Ok (tt, s') /\
    outcome (R.getAsset code) s' =
      Ok (R.set_lastUpdated (block_timestamp env)
            (R.set_assetValueUsd v (R.asset_at s code))) /\
    (forall code', code' <> code ->
       R.assets s' !! code' = R.assets s !! code') /\
    R.assetCodes s' = R.assetCodes s /\
    R.owner s' = R.owner s /\
    R.events s' =
      (R.events s ++ [R.AssetUpdated code v (block_timestamp env)])%list /\
    (forall h, outcome (R.verifyReportHash code h) s' =
               outcome (R.verifyReportHash code h) s).
Proof.
  intros Hsender Hactive Hv.
  apply Z.eqb_eq in Hsender. apply Z.ltb_lt in Hv.
  rewrite updateAssetValue_eq, Hsender, Hactive, Hv.
  eexists. split; [reflexivity|].
  split; [|split; [|split; [|split; [|split]]]]; try reflexivity.
  - unfold outcome. rewrite getAsset_eq, asset_at_insert_eq. simpl.
    rewrite Hactive. reflexivity.
  - intros code' Hne. simpl. apply lookup_insert_ne. congruence.
  - intros h. unfold outcome.
    rewrite !verifyReportHash_eq, asset_at_insert_eq. simpl.
    rewrite Hactive. reflexivity.
Qed.

Lemma updateAssetValue_effect_witness :
  exists s',
    R.updateAssetValue (by_owner 1002) AKTA_ASSET_CODE NEW_VALUE AKTA_registry
      = Ok (tt, s') /\
    outcome (R.getAsset AKTA_ASSET_CODE) s' =
      Ok (R.mkAsset AKTA_ASSET_CODE AKTA_NAME AKTA_STANDARD AKTA_JURISDICTION
                    NEW_VALUE AKTA_RESOURCES AKTA_GOLD_OZ AKTA_REPORT_HASH
                    1002 owner_address true) /\
    outcome (R.verifyReportHash AKTA_ASSET_CODE AKTA_REPORT_HASH) s' = Ok true.
Proof.
  destruct (updateAssetValue_effect (by_owner 1002) AKTA_ASSET_CODE NEW_VALUE
              AKTA_registry) as (s' & Hrun & Hget & _ & _ & _ & _ & Hhash);
    [reflexivity | reflexivity | reflexivity |].
  exists s'. split; [exact Hrun|]. split; [exact Hget|].
  rewrite Hhash. reflexivity.
Defined.

(** [updateAssetValue] fails with [Unauthorized] for a caller that is not
    the owner; for the owner, with [NotFound] when no record is stored under
    the code or the record is inactive; past that, with [InvalidValue] when
    the new value is not positive.  It fails in no other case, it never
    creates a record, and every failure leaves the state as it was. *)
Theorem updateAssetValue_failures env code v s :
  failure (outcome (R.updateAssetValue env code v) s) =
    (if negb (msg_sender env =? R.owner s) then Some Unauthorized
     else if negb (R.isActive (R.asset_at s code)) then Some NotFound
     else if v <=? 0 then Some InvalidValue
     else None) /\
  (R.assets s !! code = None ->
     R.assets (transact (R.updateAssetValue env code v) s) !! code = None) /\
  (failure (outcome (R.updateAssetValue env code v) s) <> None ->
     transact (R.updateAssetValue env code v) s = s).
Proof.
  unfold outcome, transact. rewrite updateAssetValue_eq.
  destruct (msg_sender env =? R.owner s); simpl; [|auto].
  destruct (R.isActive (R.asset_at s code)) eqn:Ha; simpl.
  - destruct (Z.ltb_spec 0 v) as [Hv|Hv]; simpl.
    + destruct (Z.leb_spec v 0); [lia|]. repeat split; try congruence.
      intros Hnone. unfold R.asset_at in Ha. rewrite Hnone in Ha.
      discriminate.
    + destruct (Z.leb_spec v 0); [|lia]. auto.
  - auto.
Qed.

Lemma updateAssetValue_failures_witness :
  R.assets fresh_registry !! AKTA_ASSET_CODE = None /\
  R.assets (transact (R.updateAssetValue (by_owner 1001) AKTA_ASSET_CODE
                                         NEW_VALUE) fresh_registry)
    !! AKTA_ASSET_CODE = None /\
  transact (R.updateAssetValue (by_owner 1002) AKTA_ASSET_CODE 0) AKTA_registry
    = AKTA_registry.
Proof.
  assert (H : R.assets fresh_registry !! AKTA_ASSET_CODE = None) by reflexivity.
  split; [exact H|]. split.
  - exact (proj1 (proj2 (updateAssetValue_failures (by_owner 1001)
                           AKTA_ASSET_CODE NEW_VALUE fresh_registry)) H).
  - apply (updateAssetValue_failures (by_owner 1002) AKTA_ASSET_CODE 0
                                     AKTA_registry).
    discriminate.
Defined.

(** After a successful [deactivateAsset], every further [deactivateAsset]
    and every [updateAssetValue] on the same code fails, whoever calls and
    whatever the value: with [Unauthorized] for a caller that is not the
    owner, with [NotFound] for the owner. *)
Theorem deactivated_rejects_update env code s s' :
  R.deactivateAsset env code s = Ok (tt, s') ->
  forall env',
    (forall v,
       failure (outcome (R.updateAssetValue env' code v) s') =
         Some (if msg_sender env' =? R.owner s' then NotFound
               else Unauthorized)) /\
    failure (outcome (R.deactivateAsset env' code) s') =
      Some (if msg_sender env' =? R.owner s' then NotFound else Unauthorized).
Proof.
  rewrite deactivateAsset_eq.
  destruct (_ =? _); [|discriminate].
  destruct (R.isActive _); [|discriminate].
  intros [= <-] env'. unfold outcome.
  split; [intros v; rewrite updateAssetValue_eq|rewrite deactivateAsset_eq];
    rewrite asset_at_insert_eq; simpl;
    destruct (msg_sender env' =? R.owner s); reflexivity.
Qed.

Lemma deactivated_rejects_update_witness :
  failure (outcome (R.updateAssetValue (by_owner 1003) AKTA_ASSET_CODE
                                       NEW_VALUE) deactivated_registry)
    = Some NotFound /\
  failure (outcome (R.deactivateAsset (by_owner 1003) AKTA_ASSET_CODE)
                   deactivated_registry)
    = Some NotFound.
Proof.
  assert (H : R.deactivateAsset (by_owner 1002) AKTA_ASSET_CODE AKTA_registry
              = Ok (tt, deactivated_registry)) by reflexivity.
  destruct (deactivated_rejects_update (by_owner 1002) AKTA_ASSET_CODE
              AKTA_registry deactivated_registry H (by_owner 1003))
    as [Hupd Hdeact].
  split; [exact (Hupd NEW_VALUE) | exact Hdeact].
Defined.

(** [getAssetCodeByIndex] succeeds exactly for the indices below
    [getAssetCount]: for such an index it returns the code at that position
    of the enumeration, and for every index from the count on it fails with
    [IndexOutOfRange]; in a registry just deployed it fails for every
    index. *)
Theorem getAssetCodeByIndex_bounds s index :
  0 <= index ->
  exists count,
    outcome R.getAssetCount s = Ok count /\
    0 <= count /\
    (index < count ->
       exists code,
         outcome (R.getAssetCodeByIndex index) s = Ok code /\
         R.assetCodes s !! Z.to_nat index = Some code) /\
    (count <= index ->
       failure (outcome (R.getAssetCodeByIndex index) s)
         = Some IndexOutOfRange) /\
    (forall env,
       failure (outcome (R.getAssetCodeByIndex index) (R.constructor env))
         = Some IndexOutOfRange).
Proof.
  intros Hindex. exists (Z.of_nat (length (R.assetCodes s))).
  split; [reflexivity|]. split; [lia|].
  unfold outcome. rewrite getAssetCodeByIndex_eq.
  split; [|split].
  - intros Hlt. apply Z.ltb_lt in Hlt as Hb. rewrite Hb.
    destruct (R.assetCodes s !! Z.to_nat index) as [code|] eqn:Hcode.
    + exists code. split; [|reflexivity]. f_equal.
      apply nth_lookup_Some with (d := 0) in Hcode. exact Hcode.
    + apply lookup_ge_None in Hcode. lia.
  - intros Hge. apply Z.ltb_ge in Hge. rewrite Hge. reflexivity.
  - intros env. rewrite getAssetCodeByIndex_eq. simpl length.
    change (Z.of_nat 0) with 0.
    destruct (Z.ltb_spec index 0); [lia|reflexivity].
Qed.

Lemma getAssetCodeByIndex_bounds_witness :
  outcome (R.getAssetCodeByIndex 0) AKTA_registry = Ok AKTA_ASSET_CODE /\
  failure (outcome (R.getAssetCodeByIndex 1) AKTA_registry)
    = Some IndexOutOfRange.
Proof.
  split.
  - destruct (getAssetCodeByIndex_bounds AKTA_registry 0 ltac:(lia))
      as (count & Hcount & _ & Hin & _).
    injection Hcount as <-.
    destruct Hin as (code & Hcode & Hat); [reflexivity|].
    rewrite Hcode. injection Hat as <-. reflexivity.
  - destruct (getAssetCodeByIndex_bounds AKTA_registry 1 ltac:(lia))
      as (count & Hcount & _ & _ & Hout & _).
    injection Hcount as <-. apply Hout. reflexivity.
Defined.

(** ** Invariants of the deployed registries *)

(** Where a change of the registries comes from: a deployment, a call sent
    to a registry, or the call a coordinator forwards. *)
Lemma exec_registries_origin env tx w w' :
  exec env tx w = Ok (tt, w') ->
  registries w' = registries w \/
  (exists addr,
     registries w !! addr = None /\
     registries w' = <[addr := R.constructor env]> (registries w)) \/
  (exists addr env' c s s',
     registries w !! addr = Some s /\
     registry_call env' c s = Ok (tt, s') /\
     registries w' = <[addr := s']> (registries w) /\
     ((tx = ToRegistry addr c /\ env' = env) \/
      (exists a cc,
         tx = ToCoordinator a cc /\
         forwarded env cc = Some c /\
         env' = P.callee_env a env))).
Proof.
  destruct tx as [addr|addr ra|addr c|addr cc]; simpl.
  - unfold vacant.
    destruct (registries w !! addr) eqn:Hr; [discriminate|].
    destruct (coordinators w !! addr); [discriminate|].
    intros [= <-]. right. left. exists addr. auto.
  - destruct (vacant w addr); [|discriminate].
    destruct (P.constructor env ra); [|discriminate].
    intros [= <-]. left. reflexivity.
  - destruct (registries w !! addr) as [s|] eqn:Hr; [|discriminate].
    destruct (registry_call env c s) as [[[] s']|] eqn:Hcall; [|discriminate].
    intros [= <-]. right. right. exists addr, env, c, s, s'.
    repeat split; auto.
  - destruct (coordinators w !! addr) as [st|]; [|discriminate].
    destruct (coordinator_call addr env cc _) as [[[] st']|] eqn:Hcall;
      [|discriminate].
    intros [= <-]. simpl.
    apply coordinator_call_chain in Hcall. simpl in Hcall.
    destruct (forwarded env cc) as [c|] eqn:Hfwd.
    + destruct Hcall as (r & r' & Hr & Hsub & Hchain).
      right. right.
      exists (P.registry st), (P.callee_env addr env), c, r, r'.
      repeat split; try assumption.
      right. exists addr, cc. auto.
    + left. exact Hcall.
Qed.

Section RegistryInvariants.

Variable I : R.State -> Prop.
Hypothesis I_constructor : forall env, I (R.constructor env).
Hypothesis I_call :
  forall env c s s', I s -> registry_call env c s = Ok (tt, s') -> I s'.

Lemma reachable_registry_invariant w :
  reachable w -> forall r s, registries w !! r = Some s -> I s.
Proof.
  induction 1 as [|w env tx _ IH]; intros r s.
  - simpl. rewrite lookup_empty. discriminate.
  - destruct (transact_exec_cases env tx w) as [->|(w' & Hexec & ->)];
      [apply IH|].
    apply exec_registries_origin in Hexec.
    destruct Hexec as [Heq|[(addr & _ & Heq)|
                       (addr & env' & c & s0 & s0' & Hs0 & Hcall & Heq & _)]];
      rewrite Heq.
    + apply IH.
    + destruct (decide (addr = r)) as [->|Hne].
      * rewrite lookup_insert_eq. intros [= <-]. apply I_constructor.
      * rewrite lookup_insert_ne by assumption. apply IH.
    + destruct (decide (addr = r)) as [->|Hne].
      * rewrite lookup_insert_eq. intros [= <-].
        eapply I_call; [|exact Hcall]. eapply IH. exact Hs0.
      * rewrite lookup_insert_ne by assumption. apply IH.
Qed.

End RegistryInvariants.

Section RegistryRelations.

Variable Rel : R.State -> R.State -> Prop.
Hypothesis Rel_refl : forall s, Rel s s.
Hypothesis Rel_trans : forall a b c, Rel a b -> Rel b c -> Rel a c.
Hypothesis Rel_call :
  forall env c s s', registry_call env c s = Ok (tt, s') -> Rel s s'.

Lemma exec_registry_relation env tx w r s :
  registries w !! r = Some s ->
  exists s', registries (transact (exec env tx) w) !! r = Some s' /\ Rel s s'.
Proof.
  intros Hr.
  destruct (transact_exec_cases env tx w) as [->|(w' & Hexec & ->)].
  { exists s. auto. }
  apply exec_registries_origin in Hexec.
  destruct Hexec as [Heq|[(addr & Hvacant & Heq)|
                     (addr & env' & c & s0 & s0' & Hs0 & Hcall & Heq & _)]];
    rewrite Heq.
  - exists s. auto.
  - exists s. split; [|apply Rel_refl].
    rewrite lookup_insert_ne; [exact Hr|]. intros ->. congruence.
  - destruct (decide (addr = r)) as [->|Hne].
    + rewrite lookup_insert_eq. exists s0'. split; [reflexivity|].
      assert (s0 = s) as -> by congruence. eapply Rel_call. exact Hcall.
    + rewrite lookup_insert_ne by assumption. exists s. auto.
Qed.

Lemma run_registry_relation txs : forall w r s,
  registries w !! r = Some s ->
  exists s', registries (run txs w) !! r = Some s' /\ Rel s s'.
Proof.
  induction txs as [|[env tx] rest IH]; intros w r s Hr; simpl.
  - exists s. auto.
  - destruct (exec_registry_relation env tx w r s Hr) as (s1 & Hr1 & Hrel1).
    destruct (IH _ r s1 Hr1) as (s' & Hr' & Hrel').
    exists s'. split; [exact Hr'|]. eapply Rel_trans; eassumption.
Qed.

End RegistryRelations.

Lemma registry_call_grows env c s s' :
  registry_call env c s = Ok (tt, s') -> grows s s'.
Proof.
  destruct c; simpl.
  - rewrite registerAsset_eq.
    destruct (_ =? _); [|discriminate].
    destruct (R.isActive _); [discriminate|].
    destruct (0 <? _); [|discriminate].
    destruct (_ =? 0); [discriminate|].
    intros [= <-]. split; simpl.
    + apply prefix_app_r. reflexivity.
    + intros code [a Ha]. destruct (decide (assetCode = code)) as [->|Hne].
      * rewrite lookup_insert_eq. eauto.
      * rewrite lookup_insert_ne by assumption. eauto.
  - rewrite updateAssetValue_eq.
    destruct (_ =? _); [|discriminate].
    destruct (R.isActive _); [|discriminate].
    destruct (0 <? _); [|discriminate].
    intros [= <-]. split; simpl.
    + reflexivity.
    + intros code [a Ha]. destruct (decide (assetCode = code)) as [->|Hne].
      * rewrite lookup_insert_eq. eauto.
      * rewrite lookup_insert_ne by assumption. eauto.
  - rewrite deactivateAsset_eq.
    destruct (_ =? _); [|discriminate].
    destruct (R.isActive _); [|discriminate].
    intros [= <-]. split; simpl.
    + reflexivity.
    + intros code [a Ha]. destruct (decide (assetCode = code)) as [->|Hne].
      * rewrite lookup_insert_eq. eauto.
      * rewrite lookup_insert_ne by assumption. eauto.
  - rewrite transferOwnership_eq.
    destruct (_ =? _); [|discriminate].
    destruct (_ =? 0); [discriminate|].
    intros [= <-]. split; simpl; [reflexivity|auto].
Qed.

(** Whatever transactions follow, a deployed registry stays deployed, its
    enumeration only grows at the end, and no stored record is deleted: the
    count never decreases and [getAssetCodeByIndex] keeps returning, at
    every index where it returned a code, that same code. *)
Theorem enumeration_append_only txs w r s :
  registries w !! r = Some s ->
  exists s',
    registries (run txs w) !! r = Some s' /\
    R.assetCodes s `prefix_of` R.assetCodes s' /\
    (forall code, is_Some (R.assets s !! code) ->
                  is_Some (R.assets s' !! code)) /\
    (forall n n', outcome R.getAssetCount s = Ok n ->
                  outcome R.getAssetCount s' = Ok n' -> n <= n') /\
    (forall index code,
       0 <= index ->
       outcome (R.getAssetCodeByIndex index) s = Ok code ->
       outcome (R.getAssetCodeByIndex index) s' = Ok code).
Proof.
  intros Hr.
  destruct (run_registry_relation grows) with (txs := txs) (w := w) (r := r)
    (s := s) as (s' & Hr' & [k Hk] & Hkeep).
  - intros s0. split; [reflexivity|auto].
  - intros a b c [Hab Hab'] [Hbc Hbc']. split; [etrans; eassumption|auto].
  - apply registry_call_grows.
  - exact Hr.
  - exists s'. split; [exact Hr'|]. split; [exists k; exact Hk|].
    split; [exact Hkeep|]. split.
    + intros n n' [= <-] [= <-]. rewrite Hk, length_app. lia.
    + intros index code Hindex. unfold outcome.
      rewrite !getAssetCodeByIndex_eq, Hk, length_app.
      destruct (Z.ltb_spec index (Z.of_nat (length (R.assetCodes s))));
        [|discriminate].
      intros [= <-].
      destruct (Z.ltb_spec index
                  (Z.of_nat (length (R.assetCodes s) + length k))); [|lia].
      f_equal. apply app_nth1. lia.
Qed.

Lemma enumeration_append_only_witness :
  exists s',
    registries (run later_calls test_world) !! registry_address = Some s' /\
    outcome (R.getAssetCodeByIndex 0) s' = Ok AKTA_ASSET_CODE.
Proof.
  destruct (enumeration_append_only later_calls test_world registry_address
              (default fresh_registry
                       (registries test_world !! registry_address)))
    as (s' & Hr' & _ & _ & _ & Hat); [reflexivity|].
  exists s'. split; [exact Hr'|].
  apply Hat; [lia | reflexivity].
Defined.

Lemma enumerated_insert m l o ev code a l' o' ev' :
  enumerated (R.mkState m l o ev) ->
  R.assetCode a = code ->
  (code ∈ l' /\ forall c, c ∈ l -> c ∈ l') ->
  (forall c, c ∈ l' -> c ∈ l \/ c = code) ->
  enumerated (R.mkState (<[code := a]> m) l' o' ev').
Proof.
  intros [Hrec Henum] Hcode [Hin Hsub] Hsup. split; simpl in *.
  - intros c b. destruct (decide (code = c)) as [->|Hne].
    + rewrite lookup_insert_eq. intros [= <-]. auto.
    + rewrite lookup_insert_ne by assumption. intros Hb.
      destruct (Hrec c b Hb). auto.
  - intros c Hc. destruct (decide (code = c)) as [->|Hne].
    + rewrite lookup_insert_eq. eauto.
    + rewrite lookup_insert_ne by assumption.
      destruct (Hsup c Hc); [auto | congruence].
Qed.

Lemma registry_call_enumerated env c s s' :
  enumerated s -> registry_call env c s = Ok (tt, s') -> enumerated s'.
Proof.
  intros Hen. destruct s as [m l o ev]. destruct c; simpl.
  - rewrite registerAsset_eq.
    destruct (_ =? _); [|discriminate].
    destruct (R.isActive _); [discriminate|].
    destruct (0 <? _); [|discriminate].
    destruct (_ =? 0); [discriminate|].
    intros [= <-]. simpl.
    eapply enumerated_insert; [exact Hen | reflexivity | |].
    + split; [|intros c Hc]; rewrite elem_of_app, list_elem_of_singleton; auto.
    + intros c. rewrite elem_of_app, list_elem_of_singleton. auto.
  - rewrite updateAssetValue_eq.
    destruct (_ =? _); [|discriminate].
    destruct (R.isActive (R.asset_at _ assetCode)) eqn:Ha; [|discriminate].
    destruct (0 <? _); [|discriminate].
    intros [= <-]. simpl.
    unfold R.asset_at in *. simpl in *.
    destruct (m !! assetCode) as [a|] eqn:Hm; [|discriminate].
    destruct (proj1 Hen assetCode a Hm) as [Hcode Hin].
    eapply enumerated_insert; [exact Hen | exact Hcode | auto | auto].
  - rewrite deactivateAsset_eq.
    destruct (_ =? _); [|discriminate].
    destruct (R.isActive (R.asset_at _ assetCode)) eqn:Ha; [|discriminate].
    intros [= <-]. simpl.
    unfold R.asset_at in *. simpl in *.
    destruct (m !! assetCode) as [a|] eqn:Hm; [|discriminate].
    destruct (proj1 Hen assetCode a Hm) as [Hcode Hin].
    eapply enumerated_insert; [exact Hen | exact Hcode | auto | auto].
  - rewrite transferOwnership_eq.
    destruct (_ =? _); [|discriminate].
    destruct (_ =? 0); [discriminate|].
    intros [= <-]. exact Hen.
Qed.

(** In every reachable state, every record of a registry is stored under
    its own [assetCode] and that code occurs in the enumeration; every
    code of the enumeration has a stored record; and whenever [getAsset]
    returns a record, it is the record of the requested code and the code
    is found by enumeration. *)
Theorem records_enumerated w :
  reachable w ->
  forall r s,
    registries w !! r = Some s ->
    (forall code a, R.assets s !! code = Some a ->
                    R.assetCode a = code /\ code ∈ R.assetCodes s) /\
    (forall code, code ∈ R.assetCodes s -> is_Some (R.assets s !! code)) /\
    (forall code a,
       outcome (R.getAsset code) s = Ok a ->
       R.assetCode a = code /\
       exists i, outcome (R.getAssetCodeByIndex (Z.of_nat i)) s = Ok code).
Proof.
  intros Hw r s Hr.
  assert (Hen : enumerated s).
  { eapply (reachable_registry_invariant enumerated); try eassumption.
    - intros env. split; simpl.
      + intros code a. rewrite lookup_empty. discriminate.
      + intros code Hin. inversion Hin.
    - apply registry_call_enumerated. }
  destruct Hen as [Hrec Henum]. split; [exact Hrec|]. split; [exact Henum|].
  intros code a. unfold outcome. rewrite getAsset_eq.
  destruct (R.isActive (R.asset_at s code)) eqn:Ha; [|discriminate].
  intros [= <-]. unfold R.asset_at in *.
  destruct (R.assets s !! code) as [a|] eqn:Hm; [|discriminate]. simpl.
  destruct (Hrec code a Hm) as [Hcode Hin]. split; [exact Hcode|].
  apply list_elem_of_lookup in Hin. destruct Hin as [i Hi]. exists i.
  rewrite getAssetCodeByIndex_eq.
  pose proof (lookup_lt_Some _ _ _ Hi) as Hlt.
  destruct (Z.ltb_spec (Z.of_nat i) (Z.of_nat (length (R.assetCodes s))));
    [|lia].
  rewrite Nat2Z.id. f_equal.
  apply nth_lookup_Some with (d := 0) in Hi. exact Hi.
Qed.

Lemma records_enumerated_witness :
  reachable (run (firstn 2 test_setup) genesis) /\
  registries (run (firstn 2 test_setup) genesis) !! registry_address
    = Some AKTA_registry /\
  forall code a,
    outcome (R.getAsset code) AKTA_registry = Ok a -> R.assetCode a = code.
Proof.
  assert (Hreach : reachable (run (firstn 2 test_setup) genesis)).
  { apply reachable_run. constructor. }
  assert (Hr : registries (run (firstn 2 test_setup) genesis)
                 !! registry_address = Some AKTA_registry) by reflexivity.
  split; [exact Hreach|]. split; [exact Hr|].
  intros code a Ha.
  destruct (records_enumerated _ Hreach registry_address AKTA_registry Hr)
    as (_ & _ & Hget).
  destruct (Hget code a Ha) as [Hcode _]. exact Hcode.
Defined.

(** ** The event log of a registry *)

Lemma registered_codes_snoc evs e :
  registered_codes (evs ++ [e]) =
  (registered_codes evs ++
     match registered_code e with Some c => [c] | None => [] end)%list.
Proof.
  unfold registered_codes. rewrite omap_app. simpl.
  destruct (registered_code e); reflexivity.
Qed.

Lemma index_log_snoc code evs e :
  index_log code (evs ++ [e]) = index_event code (index_log code evs) e.
Proof. unfold index_log. rewrite fold_left_app. reflexivity. Qed.

Lemma registry_call_logged env c s s' :
  logged s -> registry_call env c s = Ok (tt, s') -> logged s'.
Proof.
  intros [Hcodes Hix]. destruct s as [m l o ev]. simpl in Hcodes.
  destruct c; simpl.
  - rewrite registerAsset_eq.
    destruct (_ =? _); [|discriminate].
    destruct (R.isActive _); [discriminate|].
    destruct (0 <? _); [|discriminate].
    destruct (_ =? 0); [discriminate|].
    intros [= <-]. split; simpl.
    + rewrite registered_codes_snoc, Hcodes. reflexivity.
    + intros code. rewrite index_log_snoc. simpl.
      destruct (Z.eqb_spec assetCode code) as [->|Hne].
      * rewrite asset_at_insert_eq. reflexivity.
      * rewrite (asset_at_insert_ne _ _ _ _ _ _ _ l o ev) by assumption.
        apply Hix.
  - rewrite updateAssetValue_eq.
    destruct (_ =? _); [|discriminate].
    destruct (R.isActive _); [|discriminate].
    destruct (0 <? _); [|discriminate].
    intros [= <-]. split; simpl.
    + rewrite registered_codes_snoc, Hcodes. simpl. rewrite app_nil_r.
      reflexivity.
    + intros code. rewrite index_log_snoc. simpl.
      destruct (Z.eqb_spec assetCode code) as [->|Hne].
      * rewrite asset_at_insert_eq, Hix. reflexivity.
      * rewrite (asset_at_insert_ne _ _ _ _ _ _ _ l o ev) by assumption.
        apply Hix.
  - rewrite deactivateAsset_eq.
    destruct (_ =? _); [|discriminate].
    destruct (R.isActive _); [|discriminate].
    intros [= <-]. split; simpl.
    + rewrite registered_codes_snoc, Hcodes. simpl. rewrite app_nil_r.
      reflexivity.
    + intros code. rewrite index_log_snoc. simpl.
      destruct (Z.eqb_spec assetCode code) as [->|Hne].
      * rewrite asset_at_insert_eq, Hix. reflexivity.
      * rewrite (asset_at_insert_ne _ _ _ _ _ _ _ l o ev) by assumption.
        apply Hix.
  - rewrite transferOwnership_eq.
    destruct (_ =? _); [|discriminate].
    destruct (_ =? 0); [discriminate|].
    intros [= <-]. split; [exact Hcodes | exact Hix].
Qed.

Lemma reachable_logged w :
  reachable w -> forall r s, registries w !! r = Some s -> logged s.
Proof.
  apply (reachable_registry_invariant logged).
  - intros env. split; reflexivity.
  - apply registry_call_logged.
Qed.

(** In every reachable state the enumeration of a registry is exactly the
    sequence of the codes of its [AssetRegistered] events, in the order of
    the log: the count is the number of registrations logged. *)
Theorem enumeration_mirrors_log w :
  reachable w ->
  forall r s,
    registries w !! r = Some s ->
    R.assetCodes s = registered_codes (R.events s) /\
    outcome R.getAssetCount s
      = Ok (Z.of_nat (length (registered_codes (R.events s)))).
Proof.
  intros Hw r s Hr. destruct (reachable_logged w Hw r s Hr) as [Hcodes _].
  split; [exact Hcodes|]. rewrite getAssetCount_outcome, Hcodes. reflexivity.
Qed.

Lemma enumeration_mirrors_log_witness :
  exists s,
    registries (run test_setup_inactive genesis) !! registry_address = Some s /\
    R.assetCodes s = registered_codes (R.events s).
Proof.
  assert (Hreach : reachable (run test_setup_inactive genesis)).
  { apply reachable_run. constructor. }
  exists (default fresh_registry
            (registries (run test_setup_inactive genesis) !! registry_address)).
  assert (Hr : registries (run test_setup_inactive genesis) !! registry_address
               = Some (default fresh_registry
                         (registries (run test_setup_inactive genesis)
                            !! registry_address))) by reflexivity.
  split; [exact Hr|].
  exact (proj1 (enumeration_mirrors_log _ Hreach registry_address _ Hr)).
Defined.

(** In every reachable state, replaying the event log of a registry gives,
    for every code, the stored record's active flag, value and report hash
    (inactive, zero and zero for a code never registered): what
    [getAsset] and [verifyReportHash] answer can be recomputed from the
    events alone. *)
Theorem log_determines_records w :
  reachable w ->
  forall r s code,
    registries w !! r = Some s ->
    index_log code (R.events s) = indexed_of (R.asset_at s code) /\
    (forall a, outcome (R.getAsset code) s = Ok a ->
       ix_active (index_log code (R.events s)) = true /\
       ix_value (index_log code (R.events s)) = R.assetValueUsd a /\
       ix_hash (index_log code (R.events s)) = R.reportHash a) /\
    (failure (outcome (R.getAsset code) s) = Some NotFound <->
       ix_active (index_log code (R.events s)) = false).
Proof.
  intros Hw r s code Hr. destruct (reachable_logged w Hw r s Hr) as [_ Hix].
  rewrite Hix. split; [reflexivity|]. unfold outcome. rewrite getAsset_eq.
  simpl. destruct (R.isActive (R.asset_at s code)); split.
  - intros a [= <-]. auto.
  - split; discriminate.
  - discriminate.
  - split; reflexivity.
Qed.

Lemma log_determines_records_witness :
  exists s,
    registries (run test_setup_inactive genesis) !! registry_address = Some s /\
    index_log AKTA_ASSET_CODE (R.events s)
      = mkIndexed false AKTA_VALUE AKTA_REPORT_HASH.
Proof.
  assert (Hreach : reachable (run test_setup_inactive genesis)).
  { apply reachable_run. constructor. }
  exists (default fresh_registry
            (registries (run test_setup_inactive genesis) !! registry_address)).
  assert (Hr : registries (run test_setup_inactive genesis) !! registry_address
               = Some (default fresh_registry
                         (registries (run test_setup_inactive genesis)
                            !! registry_address))) by reflexivity.
  split; [exact Hr|].
  rewrite (proj1 (log_determines_records _ Hreach registry_address _
                    AKTA_ASSET_CODE Hr)).
  reflexivity.
Defined.

(** ** Further properties of the coordinator *)

(** [submitProof] fails, in this order: with [Unauthorized] for a caller
    that is not the coordinator's owner, whatever the payload; with the
    verifier's own reason, unchanged, when the verifier fails; with
    [InvalidOracleValue] when the verified value is not positive; when no
    registry is deployed at the stored address; and with the registry's
    [Unauthorized] when the coordinator is not the owner of its registry,
    even though the caller owns the coordinator.  Every failure leaves the
    coordinator and the registries as they were. *)
Theorem submitProof_failures this env code feed st :
  let call := P.submitProof this env code feed in
  (msg_sender env <> P.owner (P.storage st) ->
     failure (outcome call st) = Some Unauthorized) /\
  (msg_sender env = P.owner (P.storage st) ->
   forall reason,
     oracle env feed = Revert reason ->
     call st = Revert reason) /\
  (msg_sender env = P.owner (P.storage st) ->
   forall v,
     oracle env feed = Ok v -> v <= 0 ->
     failure (outcome call st) = Some InvalidOracleValue) /\
  (msg_sender env = P.owner (P.storage st) ->
   forall v,
     oracle env feed = Ok v -> 0 < v ->
     P.chain st !! P.registry (P.storage st) = None ->
     failure (outcome call st) <> None) /\
  (msg_sender env = P.owner (P.storage st) ->
   forall v r,
     oracle env feed = Ok v -> 0 < v ->
     P.chain st !! P.registry (P.storage st) = Some r ->
     R.owner r <> this ->
     failure (outcome call st) = Some Unauthorized) /\
  (failure (outcome call st) <> None -> transact call st = st).
Proof.
  intros call. unfold call, outcome, transact. rewrite submitProof_eq.
  split; [|split; [|split; [|split; [|split]]]].
  - intros Hne. apply Z.eqb_neq in Hne. rewrite Hne. reflexivity.
  - intros Heq reason Ho. apply Z.eqb_eq in Heq. rewrite Heq, Ho. reflexivity.
  - intros Heq v Ho Hv. apply Z.eqb_eq in Heq. rewrite Heq, Ho.
    destruct (Z.ltb_spec 0 v); [lia|reflexivity].
  - intros Heq v Ho Hv Hnone. apply Z.eqb_eq in Heq. apply Z.ltb_lt in Hv.
    rewrite Heq, Ho, Hv, Hnone. discriminate.
  - intros Heq v r Ho Hv Hr Hown. apply Z.eqb_eq in Heq. apply Z.ltb_lt in Hv.
    rewrite Heq, Ho, Hv, Hr, updateAssetValue_eq. simpl.
    destruct (Z.eqb_spec this (R.owner r)); [congruence|reflexivity].
  - destruct (_ =? _); [|reflexivity].
    destruct (oracle env feed) as [v|]; [|reflexivity].
    destruct (0 <? v); [|reflexivity].
    destruct (P.chain st !! _) as [r|]; [|reflexivity].
    destruct (R.updateAssetValue _ _ _ r) as [[[] r']|]; [|reflexivity].
    simpl. congruence.
Qed.

Lemma submitProof_failures_witness :
  failure (outcome (P.submitProof coordinator_address (by_addr1 1005)
                      AKTA_ASSET_CODE AKTA_DATA_FEED_ID) test_state)
    = Some Unauthorized /\
  P.submitProof coordinator_address (by_owner 1005) AKTA_ASSET_CODE 0 test_state
    = Revert "missing data feed" /\
  failure (outcome (P.submitProof coordinator_address
                      (mkEnv owner_address 1005 (mock_oracle 0))
                      AKTA_ASSET_CODE AKTA_DATA_FEED_ID) test_state)
    = Some InvalidOracleValue /\
  failure (outcome (P.submitProof addr1 (by_owner 1005)
                      AKTA_ASSET_CODE AKTA_DATA_FEED_ID) test_state)
    = Some Unauthorized.
Proof.
  split; [|split; [|split]].
  - apply (submitProof_failures coordinator_address (by_addr1 1005)
             AKTA_ASSET_CODE AKTA_DATA_FEED_ID test_state).
    discriminate.
  - apply (submitProof_failures coordinator_address (by_owner 1005)
             AKTA_ASSET_CODE 0 test_state); reflexivity.
  - apply (submitProof_failures coordinator_address
             (mkEnv owner_address 1005 (mock_oracle 0))
             AKTA_ASSET_CODE AKTA_DATA_FEED_ID test_state)
      with (v := 0); [reflexivity | reflexivity | lia].
  - apply (submitProof_failures addr1 (by_owner 1005)
             AKTA_ASSET_CODE AKTA_DATA_FEED_ID test_state)
      with (v := NEW_VALUE)
           (r := default fresh_registry
                   (P.chain test_state !! registry_address));
      [reflexivity | reflexivity | reflexivity | reflexivity | discriminate].
Defined.

(** The coordinator's [registerAsset], called by the coordinator's owner
    with valid arguments for a code without active record, registers the
    asset in the coordinator's registry when the coordinator owns that
    registry, and leaves the coordinator's own storage untouched; when the
    coordinator does not own the registry the call fails with the
    registry's [Unauthorized], and a caller that is not the coordinator's
    owner is rejected before the registry is called. *)
Theorem forwarded_registerAsset this env code name std jur v mt oz h holder st r :
  P.chain st !! P.registry (P.storage st) = Some r ->
  let call := P.registerAsset this env code name std jur v mt oz h holder in
  (msg_sender env = P.owner (P.storage st) ->
   R.owner r = this ->
   R.isActive (R.asset_at r code) = false ->
   0 < v -> holder <> 0 ->
   exists r',
     R.registerAsset (P.callee_env this env) code name std jur v mt oz h
                     holder r = Ok (tt, r') /\
     call st = Ok (tt, P.mkState (P.storage st)
                        (<[P.registry (P.storage st) := r']> (P.chain st))) /\
     outcome (R.getAsset code) r' =
       Ok (R.mkAsset code name std jur v mt oz h (block_timestamp env)
                     holder true)) /\
  (msg_sender env = P.owner (P.storage st) ->
   R.owner r <> this ->
   call st = Revert "Only owner can call this function") /\
  (msg_sender env <> P.owner (P.storage st) ->
   call st = Revert "Only owner can call this function").
Proof.
  intros Hr call. unfold call. rewrite P_registerAsset_eq, Hr.
  split; [|split].
  - intros Heq Hown Hina Hv Hh.
    apply Z.eqb_eq in Heq. apply Z.ltb_lt in Hv. apply Z.eqb_neq in Hh.
    rewrite Heq, registerAsset_eq. simpl.
    rewrite Hown, Z.eqb_refl, Hina, Hv, Hh.
    eexists. split; [reflexivity|]. split; [reflexivity|].
    unfold outcome. rewrite getAsset_eq, asset_at_insert_eq. reflexivity.
  - intros Heq Hown. apply Z.eqb_eq in Heq. rewrite Heq, registerAsset_eq.
    simpl. destruct (Z.eqb_spec this (R.owner r)); [congruence|reflexivity].
  - intros Hne. apply Z.eqb_neq in Hne. rewrite Hne. reflexivity.
Qed.

Lemma forwarded_registerAsset_witness :
  P.chain test_state_inactive !! P.registry (P.storage test_state_inactive)
    = Some (default fresh_registry
              (P.chain test_state_inactive !! registry_address)) /\
  exists st',
    P.registerAsset coordinator_address (by_owner 1005) AKTA_ASSET_CODE
      AKTA_NAME AKTA_STANDARD AKTA_JURISDICTION NEW_VALUE AKTA_RESOURCES
      AKTA_GOLD_OZ AKTA_REPORT_HASH owner_address test_state_inactive
    = Ok (tt, st') /\
    P.storage st' = P.storage test_state_inactive.
Proof.
  assert (Hr : P.chain test_state_inactive
                 !! P.registry (P.storage test_state_inactive)
               = Some (default fresh_registry
                         (P.chain test_state_inactive !! registry_address)))
    by reflexivity.
  split; [exact Hr|].
  destruct (proj1 (forwarded_registerAsset coordinator_address (by_owner 1005)
                     AKTA_ASSET_CODE AKTA_NAME AKTA_STANDARD AKTA_JURISDICTION
                     NEW_VALUE AKTA_RESOURCES AKTA_GOLD_OZ AKTA_REPORT_HASH
                     owner_address test_state_inactive _ Hr))
    as (r' & _ & Hcall & _);
    [reflexivity | reflexivity | reflexivity | reflexivity | discriminate |].
  eexists. split; [exact Hcall|]. reflexivity.
Defined.

(** [updateRegistry] fails with [Unauthorized] for a caller that is not the
    owner and, for the owner, with [InvalidReference] for the zero address;
    otherwise it stores the new address, whether or not a registry is
    deployed there, logs [RegistryUpdated], and keeps the owner and every
    stored proof: [getLatestProof] still returns the proofs submitted
    against the former registry.  No registry is changed. *)
Theorem updateRegistry_effect env newRegistry st :
  (msg_sender env <> P.owner (P.storage st) ->
     failure (outcome (P.updateRegistry env newRegistry) st)
       = Some Unauthorized) /\
  (msg_sender env = P.owner (P.storage st) -> newRegistry = 0 ->
     failure (outcome (P.updateRegistry env newRegistry) st)
       = Some InvalidReference) /\
  (msg_sender env = P.owner (P.storage st) -> newRegistry <> 0 ->
     exists st',
       P.updateRegistry env newRegistry st = Ok (tt, st') /\
       P.registry (P.storage st') = newRegistry /\
       P.owner (P.storage st') = P.owner (P.storage st) /\
       P.chain st' = P.chain st /\
       P.events (P.storage st') =
         (P.events (P.storage st) ++ [P.RegistryUpdated newRegistry])%list /\
       forall code,
         outcome (P.getLatestProof code) st' =
         outcome (P.getLatestProof code) st).
Proof.
  unfold outcome. rewrite updateRegistry_eq. split; [|split].
  - intros Hne. apply Z.eqb_neq in Hne. rewrite Hne. reflexivity.
  - intros Heq ->. apply Z.eqb_eq in Heq. rewrite Heq. reflexivity.
  - intros Heq Hnz. apply Z.eqb_eq in Heq. apply Z.eqb_neq in Hnz.
    rewrite Heq, Hnz. eexists. split; [reflexivity|]. simpl. auto 10.
Qed.

Lemma updateRegistry_effect_witness :
  exists st',
    P.updateRegistry (by_owner 1005) addr1 test_state = Ok (tt, st') /\
    P.registry (P.storage st') = addr1 /\
    failure (outcome (P.submitProof coordinator_address (by_owner 1006)
                        AKTA_ASSET_CODE AKTA_DATA_FEED_ID) st') <> None.
Proof.
  destruct (proj2 (proj2 (updateRegistry_effect (by_owner 1005) addr1
                            test_state)))
    as (st' & Hrun & Hreg & _); [reflexivity | discriminate |].
  exists st'. split; [exact Hrun|]. split; [exact Hreg|].
  vm_compute in Hrun. injection Hrun as <-. discriminate.
Defined.

(** ** Invariants of the deployed coordinators *)

Lemma exec_coordinators env tx w w' :
  exec env tx w = Ok (tt, w') ->
  coordinators w' = coordinators w \/
  (exists addr ra sto,
     P.constructor env ra = Ok sto /\
     coordinators w' = <[addr := sto]> (coordinators w)) \/
  (exists addr c sto st',
     coordinators w !! addr = Some sto /\
     coordinator_call addr env c (P.mkState sto (registries w)) = Ok (tt, st') /\
     coordinators w' = <[addr := P.storage st']> (coordinators w)).
Proof.
  destruct tx as [addr|addr ra|addr c|addr cc]; simpl.
  - destruct (vacant w addr); [|discriminate].
    intros [= <-]. left. reflexivity.
  - destruct (vacant w addr); [|discriminate].
    destruct (P.constructor env ra) as [sto|] eqn:Hctor; [|discriminate].
    intros [= <-]. right. left. exists addr, ra, sto. auto.
  - destruct (registries w !! addr) as [s|]; [|discriminate].
    destruct (registry_call env c s) as [[[] s']|]; [|discriminate].
    intros [= <-]. left. reflexivity.
  - destruct (coordinators w !! addr) as [sto|] eqn:Hsto; [|discriminate].
    destruct (coordinator_call addr env cc _) as [[[] st']|] eqn:Hcall;
      [|discriminate].
    intros [= <-]. right. right. exists addr, cc, sto, st'. auto.
Qed.

Section ProofRecords.

(** A property of block timestamps, assumed of every transaction. *)
Variable T : Z -> Prop.

Lemma coordinator_call_proofs_ok this env c st st' :
  T (block_timestamp env) ->
  proofs_ok T (P.storage st) ->
  coordinator_call this env c st = Ok (tt, st') ->
  proofs_ok T (P.storage st').
Proof.
  intros HT Hok. destruct c; simpl.
  - rewrite submitProof_eq.
    destruct (_ =? _); [|discriminate].
    destruct (oracle env dataFeedId) as [v|]; [|discriminate].
    destruct (Z.ltb_spec 0 v) as [Hv|]; [|discriminate].
    destruct (P.chain st !! _) as [r|]; [|discriminate].
    destruct (R.updateAssetValue _ _ _ r) as [[[] r']|]; [|discriminate].
    intros [= <-] code p. simpl.
    destruct (decide (assetCode = code)) as [->|Hne].
    + rewrite lookup_insert_eq. intros [= <-]. simpl. auto.
    + rewrite lookup_insert_ne by assumption. apply Hok.
  - rewrite P_registerAsset_eq.
    destruct (_ =? _); [|discriminate].
    destruct (P.chain st !! _) as [r|]; [|discriminate].
    destruct (R.registerAsset _ _ _ _ _ _ _ _ _ _ r) as [[[] r']|];
      [|discriminate].
    intros [= <-]. exact Hok.
  - rewrite updateRegistry_eq.
    destruct (_ =? _); [|discriminate].
    destruct (_ =? 0); [discriminate|].
    intros [= <-]. exact Hok.
  - rewrite P_transferOwnership_eq.
    destruct (_ =? _); [|discriminate].
    destruct (_ =? 0); [discriminate|].
    intros [= <-]. exact Hok.
Qed.

Lemma run_proofs_ok txs : forall w,
  Forall (fun etx : Env * Tx => T (block_timestamp (fst etx))) txs ->
  (forall c sto, coordinators w !! c = Some sto -> proofs_ok T sto) ->
  forall c sto, coordinators (run txs w) !! c = Some sto -> proofs_ok T sto.
Proof.
  induction txs as [|[env tx] rest IH]; intros w Hall Hw; simpl; [exact Hw|].
  inversion Hall as [|? ? HT Hrest]; subst. simpl in HT.
  apply IH; [exact Hrest|].
  destruct (transact_exec_cases env tx w) as [->|(w' & Hexec & ->)];
    [exact Hw|].
  apply exec_coordinators in Hexec.
  destruct Hexec as [Heq|[(addr & ra & sto0 & Hctor & Heq)|
                          (addr & c0 & sto0 & st' & Hsto & Hcall & Heq)]];
    intros c sto; rewrite Heq.
  - apply Hw.
  - destruct (decide (addr = c)) as [->|Hne].
    + rewrite lookup_insert_eq. intros [= <-].
      unfold P.constructor in Hctor.
      destruct (negb _); [|discriminate]. injection Hctor as <-.
      intros code p. simpl. rewrite lookup_empty. discriminate.
    + rewrite lookup_insert_ne by assumption. apply Hw.
  - destruct (decide (addr = c)) as [->|Hne].
    + rewrite lookup_insert_eq. intros [= <-].
      eapply coordinator_call_proofs_ok; [exact HT| |exact Hcall].
      simpl. eapply Hw. exact Hsto.
    + rewrite lookup_insert_ne by assumption. apply Hw.
Qed.

End ProofRecords.

(** Every proof a coordinator stores has a positive value, whatever
    transactions were made; and when every transaction has a positive block
    timestamp, every stored proof has a positive timestamp, so that
    [getLatestProof] returns timestamp zero exactly for the codes for which
    no proof was ever stored. *)
Theorem proofs_well_formed txs :
  (forall c sto code p,
     coordinators (run txs genesis) !! c = Some sto ->
     P.latestProofs sto !! code = Some p ->
     0 < P.value p) /\
  (Forall (fun etx : Env * Tx => 0 < block_timestamp (fst etx)) txs ->
   forall c sto code,
     coordinators (run txs genesis) !! c = Some sto ->
     (forall p, P.latestProofs sto !! code = Some p -> 0 < P.timestamp p) /\
     (forall chain p,
        outcome (P.getLatestProof code) (P.mkState sto chain) = Ok p ->
        (P.timestamp p = 0 <-> P.latestProofs sto !! code = None))).
Proof.
  split.
  - intros c sto code p Hsto Hp.
    eapply (run_proofs_ok (fun _ => True) txs genesis); try eassumption.
    + apply Forall_forall. auto.
    + intros c0 sto0. simpl. rewrite lookup_empty. discriminate.
  - intros Hall c sto code Hsto.
    assert (Hok : proofs_ok (fun t => 0 < t) sto).
    { eapply (run_proofs_ok (fun t => 0 < t) txs genesis); try eassumption.
      intros c0 sto0. simpl. rewrite lookup_empty. discriminate. }
    split.
    + intros p Hp. apply (Hok code p Hp).
    + intros chain p [= <-]. unfold P.proof_at.
      destruct (P.latestProofs sto !! code) as [q|] eqn:Hq; simpl.
      * destruct (Hok code q Hq) as [_ Ht]. split; [lia|discriminate].
      * split; reflexivity.
Qed.

Lemma proofs_well_formed_witness :
  Forall (fun etx : Env * Tx => 0 < block_timestamp (fst etx)) test_setup /\
  forall p,
    outcome (P.getLatestProof AKTA_ASSET_CODE) test_state = Ok p ->
    (P.timestamp p = 0 <->
     P.latestProofs (P.storage test_state) !! AKTA_ASSET_CODE = None).
Proof.
  assert (Hall : Forall (fun etx : Env * Tx => 0 < block_timestamp (fst etx))
                        test_setup).
  { repeat constructor. }
  split; [exact Hall|].
  destruct (proj2 (proofs_well_formed test_setup) Hall coordinator_address
                  (P.storage test_state) AKTA_ASSET_CODE) as [_ Hsentinel];
    [reflexivity|].
  exact (Hsentinel (P.chain test_state)).
Defined.

(** ** What the coordinator cannot do to its registry *)

Lemma forwarded_call_keeps env cc c env' s s' :
  forwarded env cc = Some c ->
  registry_call env' c s = Ok (tt, s') ->
  R.owner s' = R.owner s /\
  forall code, R.isActive (R.asset_at s code) = true ->
               R.isActive (R.asset_at s' code) = true.
Proof.
  intros Hfwd. destruct s as [m l o ev].
  destruct cc; simpl in Hfwd; try discriminate.
  - destruct (oracle env dataFeedId) as [v|]; [|discriminate].
    injection Hfwd as <-. simpl. rewrite updateAssetValue_eq.
    destruct (_ =? _); [|discriminate].
    destruct (R.isActive (R.asset_at _ assetCode)) eqn:Ha; [|discriminate].
    destruct (0 <? v); [|discriminate].
    intros [= <-]. split; [reflexivity|]. intros code Hcode.
    destruct (decide (assetCode = code)) as [->|Hne].
    + rewrite asset_at_insert_eq. simpl. exact Ha.
    + rewrite (asset_at_insert_ne _ _ _ _ _ _ _ l o ev) by assumption.
      exact Hcode.
  - injection Hfwd as <-. simpl. rewrite registerAsset_eq.
    destruct (_ =? _); [|discriminate].
    destruct (R.isActive _); [discriminate|].
    destruct (0 <? _); [|discriminate].
    destruct (_ =? 0); [discriminate|].
    intros [= <-]. split; [reflexivity|]. intros code Hcode.
    destruct (decide (assetCode = code)) as [->|Hne].
    + rewrite asset_at_insert_eq. reflexivity.
    + rewrite (asset_at_insert_ne _ _ _ _ _ _ _ l o ev) by assumption.
      exact Hcode.
Qed.

(** As long as the owner of a registry sends no transaction to the registry
    itself, the registry keeps its owner and no active record is
    deactivated, whatever else happens, calls of coordinators included: a
    coordinator forwards only [registerAsset] and [updateAssetValue].  So
    once the ownership is handed to a coordinator, which has no function
    that calls [transferOwnership] or [deactivateAsset], the ownership
    cannot be taken back and no asset can be deactivated. *)
Theorem registry_ownership_locked txs : forall w r s,
  registries w !! r = Some s ->
  Forall (fun etx => ~ sent_directly r (R.owner s) etx) txs ->
  exists s',
    registries (run txs w) !! r = Some s' /\
    R.owner s' = R.owner s /\
    forall code, R.isActive (R.asset_at s code) = true ->
                 R.isActive (R.asset_at s' code) = true.
Proof.
  induction txs as [|[env tx] rest IH]; intros w r s Hr Hall; simpl.
  { exists s. auto. }
  inversion Hall as [|? ? Hhead Hrest]; subst.
  assert (Hstep : exists s1,
            registries (transact (exec env tx) w) !! r = Some s1 /\
            R.owner s1 = R.owner s /\
            forall code, R.isActive (R.asset_at s code) = true ->
                         R.isActive (R.asset_at s1 code) = true).
  { destruct (transact_exec_cases env tx w) as [->|(w' & Hexec & ->)].
    { exists s. auto. }
    apply exec_registries_origin in Hexec.
    destruct Hexec as [Heq|[(addr & Hvacant & Heq)|
                       (addr & env' & c & s0 & s0' & Hs0 & Hcall & Heq & Horig)]];
      rewrite Heq.
    - exists s. auto.
    - exists s. split; [|auto].
      rewrite lookup_insert_ne; [exact Hr|]. intros ->. congruence.
    - destruct (decide (addr = r)) as [->|Hne].
      + rewrite lookup_insert_eq. exists s0'. split; [reflexivity|].
        assert (s0 = s) as -> by congruence.
        destruct Horig as [[-> ->]|(a & cc & -> & Hfwd & ->)].
        * exfalso. destruct (decide (msg_sender env = R.owner s)) as [Heq'|Hne'].
          -- apply Hhead. split; [reflexivity | exact Heq'].
          -- rewrite registry_call_unauthorized in Hcall by exact Hne'.
             discriminate.
        * eapply forwarded_call_keeps; eassumption.
      + rewrite lookup_insert_ne by assumption. exists s. auto. }
  destruct Hstep as (s1 & Hr1 & Hown1 & Hact1).
  destruct (IH _ r s1 Hr1) as (s' & Hr' & Hown' & Hact').
  { rewrite Hown1. exact Hrest. }
  exists s'. split; [exact Hr'|]. split; [congruence|auto].
Qed.

Lemma registry_ownership_locked_witness :
  exists s',
    registries (run former_owner_calls test_world) !! registry_address
      = Some s' /\
    R.owner s' = coordinator_address /\
    R.isActive (R.asset_at s' AKTA_ASSET_CODE) = true.
Proof.
  destruct (registry_ownership_locked former_owner_calls test_world
              registry_address
              (default fresh_registry
                       (registries test_world !! registry_address)))
    as (s' & Hr' & Hown & Hact).
  - reflexivity.
  - repeat match goal with |- Forall _ _ => constructor end;
      unfold sent_directly; simpl; try tauto;
      intros [_ H]; vm_compute in H; discriminate H.
  - exists s'. split; [exact Hr'|]. split; [exact Hown|].
    apply Hact. reflexivity.
Defined.

(** ** The deployment script *)

(** Run in a world where the two addresses are vacant, distinct and not
    zero, the deployment script completes; afterwards the registry is empty
    and owned by the coordinator, the coordinator is owned by the deployer
    and points to the registry, and nothing else has changed.  From then on
    every call the deployer sends to the registry itself fails with
    [Unauthorized], while a registration the deployer sends through the
    coordinator with valid arguments succeeds. *)
Theorem deploy_main_result deployer now1 now2 now3 payload ra pa w :
  vacant w ra = true ->
  vacant w pa = true ->
  ra <> pa -> ra <> 0 -> pa <> 0 ->
  exists w',
    script (deploy_main deployer now1 now2 now3 payload ra pa) w = (w', Ok tt) /\
    registries w' = <[ra := R.mkState ∅ [] pa []]> (registries w) /\
    coordinators w' = <[pa := P.mkStorage ra ∅ deployer []]> (coordinators w) /\
    (deployer <> pa ->
     forall env c,
       msg_sender env = deployer ->
       failure (outcome (exec env (ToRegistry ra c)) w') = Some Unauthorized) /\
    (deployer <> 0 ->
     forall env code name std jur v mt oz h,
       msg_sender env = deployer -> 0 < v ->
       failure (outcome (exec env (ToCoordinator pa
                  (ForwardRegisterAsset code name std jur v mt oz h deployer)))
                  w') = None).
Proof.
  intros Hra Hpa Hne Hra0 Hpa0.
  assert (Hvr : registries w !! ra = None /\ coordinators w !! ra = None).
  { unfold vacant in Hra. destruct (registries w !! ra); [discriminate|].
    destruct (coordinators w !! ra); [discriminate|]. auto. }
  assert (Hvp : registries w !! pa = None /\ coordinators w !! pa = None).
  { unfold vacant in Hpa. destruct (registries w !! pa); [discriminate|].
    destruct (coordinators w !! pa); [discriminate|]. auto. }
  destruct Hvr as [Hrr Hrc]. destruct Hvp as [Hpr Hpc].
  apply Z.eqb_neq in Hra0 as Hra0b. apply Z.eqb_neq in Hpa0 as Hpa0b.
  eexists. split; [|split; [|split; [|split]]].
  - unfold deploy_main, script, exec. rewrite Hra. simpl.
    unfold vacant. simpl. rewrite lookup_insert_ne by congruence.
    rewrite Hpr, Hpc. unfold P.constructor. rewrite Hra0b. simpl.
    rewrite lookup_insert_eq, transferOwnership_eq. simpl.
    rewrite Z.eqb_refl, Hpa0b. reflexivity.
  - simpl. rewrite insert_insert_eq. reflexivity.
  - reflexivity.
  - intros Hdp env c Hsender. unfold outcome. simpl.
    rewrite insert_insert_eq, lookup_insert_eq.
    rewrite registry_call_unauthorized; [reflexivity|].
    simpl. congruence.
  - intros Hd0 env code name std jur v mt oz h Hsender Hv.
    apply Z.eqb_neq in Hd0. apply Z.ltb_lt in Hv.
    unfold outcome. simpl.
    rewrite insert_insert_eq, lookup_insert_eq. simpl.
    rewrite P_registerAsset_eq. simpl.
    rewrite Hsender, Z.eqb_refl, lookup_insert_eq, registerAsset_eq. simpl.
    rewrite Z.eqb_refl, Hv, Hd0. reflexivity.
Qed.

Lemma deploy_main_result_witness :
  exists w',
    script (deploy_main owner_address 1000 1001 1002 (mock_oracle NEW_VALUE)
                        registry_address coordinator_address) genesis
      = (w', Ok tt) /\
    failure (outcome (exec (by_owner 1003)
                           (ToRegistry registry_address
                              (DeactivateAsset AKTA_ASSET_CODE))) w')
      = Some Unauthorized.
Proof.
  destruct (deploy_main_result owner_address 1000 1001 1002
              (mock_oracle NEW_VALUE) registry_address coordinator_address
              genesis) as (w' & Hrun & _ & _ & Hdirect & _);
    [reflexivity | reflexivity | discriminate | discriminate | discriminate |].
  exists w'. split; [exact Hrun|].
  apply Hdirect; [discriminate | reflexivity].
Defined.

(** ** The registration script *)






(** ** The output file name of the parser *)

Lemma safe_or_underscore c :
  file_name_unit (if is_safe_unit c then c else 95%N).
Proof.
  unfold file_name_unit. destruct (is_safe_unit c) eqn:Hc; auto.
Qed.

Lemma safeCode_fixed code :
  Forall file_name_unit code -> safeCode code = code.
Proof.
  unfold safeCode. induction 1 as [|c rest [Hc| ->] _ IH]; simpl.
  - reflexivity.
  - rewrite Hc, IH. reflexivity.
  - rewrite IH. reflexivity.
Qed.

Lemma safeCode_units code : Forall file_name_unit (safeCode code).
Proof.
  unfold safeCode. induction code as [|c rest IH]; simpl; constructor.
  - apply safe_or_underscore.
  - exact IH.
Qed.

(** The file name the [parse] command derives from an asset code has as
    many code units as the code; each is a letter, a digit, a hyphen or an
    underscore, so none is a path separator, a dot, a colon or NUL; a code
    made of such units only is kept as it is, and deriving twice gives the
    same name.  The derivation is not injective: a code in which a unit is
    replaced shares its file name with another code. *)
Theorem safeCode_properties code :
  length (safeCode code) = length code /\
  Forall file_name_unit (safeCode code) /\
  (forall c, c ∈ safeCode code ->
     c <> 47%N /\ c <> 92%N /\ c <> 46%N /\ c <> 58%N /\ c <> 0%N) /\
  (safeCode code = code <-> Forall file_name_unit code) /\
  safeCode (safeCode code) = safeCode code /\
  (safeCode code <> code ->
   exists code', code' <> code /\ safeCode code' = safeCode code).
Proof.
  split; [apply length_map|].
  split; [apply safeCode_units|].
  split; [|split; [|split]].
  - intros c Hc.
    pose proof (safeCode_units code) as Hall.
    rewrite Forall_forall in Hall. destruct (Hall c Hc) as [Hs| ->].
    + repeat split; intros ->; discriminate Hs.
    + repeat split; discriminate.
  - split.
    + intros <-. apply safeCode_units.
    + apply safeCode_fixed.
  - apply safeCode_fixed, safeCode_units.
  - intros Hne. exists (safeCode code). split; [exact Hne|].
    apply safeCode_fixed, safeCode_units.
Qed.

Lemma safeCode_properties_witness :
  safeCode (code_units "QXMP:AKTA-NI43-ZA") = code_units "QXMP_AKTA-NI43-ZA" /\
  exists code',
    code' <> code_units "QXMP:AKTA-NI43-ZA" /\
    safeCode code' = safeCode (code_units "QXMP:AKTA-NI43-ZA").
Proof.
  split; [reflexivity|].
  apply (safeCode_properties (code_units "QXMP:AKTA-NI43-ZA")).
  discriminate.
Defined.

(** ** The extractors of the report parser *)

(** [extractAssetValue] returns 6,800,000,000 for every text, whatever the
    regular expressions match: each of its branches returns that number. *)
Theorem extractAssetValue_constant js text :
  extractAssetValue js text = 6800000000.
Proof.
  unfold extractAssetValue. simpl.
  repeat (destruct (js_match js text _); [reflexivity|]).
  reflexivity.
Qed.

(** [extractJurisdiction] returns ["ZA"] for every text, whatever the
    regular expressions match and whatever the matched jurisdiction is:
    a match that does not name South Africa is skipped, and the default
    is ["ZA"] as well. *)
Theorem extractJurisdiction_constant js text :
  extractJurisdiction js text = code_units "ZA".
Proof.
  unfold extractJurisdiction. simpl.
  repeat match goal with
  | |- context [js_match js text ?p] =>
      destruct (js_match js text p) as [[? [?|]]|]; simpl
  | |- context [trim js ?g] =>
      lazymatch goal with
      | |- context [match trim js g with _ => _ end] =>
          destruct (trim js g); simpl
      end
  | |- context [includes js ?a ?b] => destruct (includes js a b); simpl
  end; reflexivity.
Qed.

(** ** Frame properties *)

Lemma same_metadata_refl a : same_metadata a a.
Proof. unfold same_metadata. auto 10. Qed.

Lemma same_metadata_trans a b c :
  same_metadata a b -> same_metadata b c -> same_metadata a c.
Proof. unfold same_metadata. intuition congruence. Qed.

Lemma registry_call_metadata env c s s' code a :
  registry_call env c s = Ok (tt, s') ->
  R.assets s !! code = Some a ->
  is_register code c = false ->
  exists a', R.assets s' !! code = Some a' /\ same_metadata a a'.
Proof.
  intros Hcall Ha Hnot.
  assert (Hat : R.asset_at s code = a) by (unfold R.asset_at; rewrite Ha; reflexivity).
  destruct c; simpl in Hcall, Hnot.
  - rewrite registerAsset_eq in Hcall.
    destruct (_ =? _); [|discriminate].
    destruct (R.isActive _); [discriminate|].
    destruct (0 <? _); [|discriminate].
    destruct (_ =? 0); [discriminate|].
    injection Hcall as <-. apply Z.eqb_neq in Hnot. simpl.
    rewrite lookup_insert_ne by assumption.
    exists a. split; [exact Ha | apply same_metadata_refl].
  - rewrite updateAssetValue_eq in Hcall.
    destruct (_ =? _); [|discriminate].
    destruct (R.isActive _); [|discriminate].
    destruct (0 <? _); [|discriminate].
    injection Hcall as <-. simpl.
    destruct (decide (assetCode = code)) as [->|Hne].
    + rewrite lookup_insert_eq, Hat. eexists. split; [reflexivity|].
      unfold same_metadata. simpl. auto 10.
    + rewrite lookup_insert_ne by assumption.
      exists a. split; [exact Ha | apply same_metadata_refl].
  - rewrite deactivateAsset_eq in Hcall.
    destruct (_ =? _); [|discriminate].
    destruct (R.isActive _); [|discriminate].
    injection Hcall as <-. simpl.
    destruct (decide (assetCode = code)) as [->|Hne].
    + rewrite lookup_insert_eq, Hat. eexists. split; [reflexivity|].
      unfold same_metadata. simpl. auto 10.
    + rewrite lookup_insert_ne by assumption.
      exists a. split; [exact Ha | apply same_metadata_refl].
  - rewrite transferOwnership_eq in Hcall.
    destruct (_ =? _); [|discriminate].
    destruct (_ =? 0); [discriminate|].
    injection Hcall as <-. simpl.
    exists a. split; [exact Ha | apply same_metadata_refl].
Qed.

Lemma exec_metadata env tx w r s code a :
  registries w !! r = Some s ->
  R.assets s !! code = Some a ->
  registers code tx = false ->
  exists s' a',
    registries (transact (exec env tx) w) !! r = Some s' /\
    R.assets s' !! code = Some a' /\
    same_metadata a a'.
Proof.
  intros Hr Ha Hnot.
  destruct (transact_exec_cases env tx w) as [->|(w' & Hexec & ->)].
  { exists s, a. split; [exact Hr|]. split; [exact Ha|apply same_metadata_refl]. }
  apply exec_registries in Hexec.
  destruct Hexec as [Heq|[(addr & Hvacant & Heq)|
                          (addr & env' & c & s0 & s0' & Hs0 & Hcall & Heq & Hc)]];
    rewrite Heq.
  - exists s, a. split; [exact Hr|]. split; [exact Ha|apply same_metadata_refl].
  - exists s, a. split; [|split; [exact Ha|apply same_metadata_refl]].
    rewrite lookup_insert_ne; [exact Hr|]. intros ->. congruence.
  - destruct (decide (addr = r)) as [->|Hne].
    + assert (s0 = s) as -> by congruence.
      destruct (registry_call_metadata env' c s s0' code a Hcall Ha (Hc code Hnot))
        as (a' & Ha' & Hsame).
      exists s0', a'. rewrite lookup_insert_eq. auto.
    + exists s, a. rewrite lookup_insert_ne by assumption.
      split; [exact Hr|]. split; [exact Ha|apply same_metadata_refl].
Qed.

(** Once a record is stored, no sequence of transactions that contains no
    registration under its code changes its code, name, reporting standard,
    jurisdiction, quantities, report hash or holder, or removes it:
    revaluations (direct or by proof submission) and deactivation touch
    only the value, the time of the last update and the active flag. *)
Theorem record_metadata_immutable txs : forall w r s code a,
  registries w !! r = Some s ->
  R.assets s !! code = Some a ->
  Forall (fun etx : Env * Tx => registers code (snd etx) = false) txs ->
  exists s' a',
    registries (run txs w) !! r = Some s' /\
    R.assets s' !! code = Some a' /\
    same_metadata a a'.
Proof.
  induction txs as [|[env tx] rest IH]; intros w r s code a Hr Ha Hall; simpl.
  - exists s, a. split; [exact Hr|]. split; [exact Ha|apply same_metadata_refl].
  - inversion Hall as [|? ? Hhead Htail]; subst. simpl in Hhead.
    destruct (exec_metadata env tx w r s code a Hr Ha Hhead)
      as (s1 & a1 & Hr1 & Ha1 & Hsame1).
    destruct (IH _ r s1 code a1 Hr1 Ha1 Htail) as (s' & a' & Hr' & Ha' & Hsame').
    exists s', a'. split; [exact Hr'|]. split; [exact Ha'|].
    eapply same_metadata_trans; eassumption.
Qed.

Lemma record_metadata_immutable_witness :
  exists s' a',
    registries (run former_owner_calls test_world) !! registry_address
      = Some s' /\
    R.assets s' !! AKTA_ASSET_CODE = Some a' /\
    R.reportHash a' = AKTA_REPORT_HASH /\
    R.holder a' = owner_address.
Proof.
  destruct (record_metadata_immutable former_owner_calls test_world
              registry_address
              (default fresh_registry
                       (registries test_world !! registry_address))
              AKTA_ASSET_CODE
              (R.asset_at AKTA_registry AKTA_ASSET_CODE))
    as (s' & a' & Hr' & Ha' & Hsame).
  - reflexivity.
  - reflexivity.
  - repeat constructor.
  - exists s', a'. split; [exact Hr'|]. split; [exact Ha'|].
    destruct Hsame as (_ & _ & _ & _ & _ & _ & Hhash & Hholder).
    split; [exact Hhash | exact Hholder].
Defined.



(** [getOracleValue] is open to every caller, changes nothing, and returns
    what the verifier yields for the payload; the value a successful
    [submitProof] stores for a feed is the positive value [getOracleValue]
    returns for the same payload. *)
Theorem getOracleValue_agrees this env code feed st :
  transact (P.getOracleValue env feed) st = st /\
  outcome (P.getOracleValue env feed) st = oracle env feed /\
  (forall st',
     P.submitProof this env code feed st = Ok (tt, st') ->
     exists v,
       outcome (P.getOracleValue env feed) st = Ok v /\
       0 < v /\
       P.proof_at (P.storage st') code = P.mkProof v (block_timestamp env) feed).
Proof.
  unfold transact, outcome, P.getOracleValue, P.getOracleNumericValueFromTxMsg.
  split; [|split].
  - destruct (oracle env feed); reflexivity.
  - destruct (oracle env feed); reflexivity.
  - intros st'. rewrite submitProof_eq.
    destruct (_ =? _); [|discriminate].
    destruct (oracle env feed) as [v|]; [|discriminate].
    destruct (Z.ltb_spec 0 v) as [Hv|]; [|discriminate].
    destruct (P.chain st !! _) as [r|]; [|discriminate].
    destruct (R.updateAssetValue _ _ _ r) as [[[] r']|]; [|discriminate].
    intros [= <-]. exists v. split; [reflexivity|]. split; [exact Hv|].
    unfold P.proof_at. simpl. rewrite lookup_insert_eq. reflexivity.
Qed.

Lemma getOracleValue_agrees_witness :
  outcome (P.getOracleValue (by_addr1 1005) AKTA_DATA_FEED_ID) test_state
    = Ok NEW_VALUE /\
  exists st' v,
    P.submitProof coordinator_address (by_owner 1005) AKTA_ASSET_CODE
                  AKTA_DATA_FEED_ID test_state = Ok (tt, st') /\
    outcome (P.getOracleValue (by_owner 1005) AKTA_DATA_FEED_ID) test_state
      = Ok v /\
    P.proof_at (P.storage st') AKTA_ASSET_CODE
      = P.mkProof v 1005 AKTA_DATA_FEED_ID.
Proof.
  split.
  - rewrite (proj1 (proj2 (getOracleValue_agrees coordinator_address
                             (by_addr1 1005) AKTA_ASSET_CODE AKTA_DATA_FEED_ID
                             test_state))).
    reflexivity.
  - eexists.
    match goal with
    | |- exists v, P.submitProof ?t ?e ?c ?f ?s = Ok (tt, ?st') /\ _ =>
        assert (H : P.submitProof t e c f s = Ok (tt, st'))
          by (vm_compute; reflexivity);
        destruct (proj2 (proj2 (getOracleValue_agrees t e c f s)) _ H)
          as (v & Hv & _ & Hproof)
    end.
    exists v. split; [exact H|]. split; [exact Hv | exact Hproof].
Defined.
